(** * Focus.js: focus / focus-within trackers and the focus-visible heuristic

    A shallow embedding of
    [packages/react-interactions/events/src/dom/create-event-handle/Focus.js].

    The listeners of the two hooks mutate a per-hook [state] object, read the
    module-level [isGlobalFocusVisible] flag, register a one-shot listener in
    the after-blur handle and call the subscriber's callbacks.  They are
    written here in a small state-and-trace monad over a [World] holding
    exactly those three pieces of mutable data; every callback invocation is
    recorded, in order, in the trace. *)

From Stdlib Require Import Bool String List.
From stdpp Require Import base option gmap strings.
Import ListNotations.
Local Open Scope string_scope.
Local Open Scope list_scope.

(** ** DOM data *)

(** A DOM node as the module reads it.  [nodeId] stands for the identity of
    the JavaScript object: [a === b] on nodes is equality of [nodeId]. *)
Record Node := {
  nodeId : nat;
  nodeType : nat;
  nodeName : string;
  tagName : string;
  isContentEditable : bool
}.

Definition same_node (a b : Node) : bool := Nat.eqb (nodeId a) (nodeId b).

(** The [document] object, the target of the after-blur listener. *)
Definition document : Node :=
  {| nodeId := 0; nodeType := 9; nodeName := "#document"; tagName := "";
     isContentEditable := false |}.

(** The fields of a native event that the module reads. *)
Record NativeEvent := {
  type : string;
  target : Node;
  relatedTarget : option Node;
  metaKey : bool;
  altKey : bool;
  ctrlKey : bool;
  key : string
}.

(** A synthetic event: its own [type] and [target], and the native event. *)
Record SyntheticEvent := {
  eventType : string;
  eventTarget : Node;
  nativeEvent : NativeEvent
}.

(** ** Subscriber callbacks

    The callbacks are opaque to the module; what can be observed is which one
    is called, with which argument, in which order. *)
Inductive Call :=
| Call_onBlur (e : SyntheticEvent)
| Call_onFocus (e : SyntheticEvent)
| Call_onFocusChange (b : bool)
| Call_onFocusVisibleChange (b : bool)
| Call_onAfterBlurWithin (e : SyntheticEvent)
| Call_onBeforeBlurWithin (e : SyntheticEvent)
| Call_onBlurWithin (e : SyntheticEvent)
| Call_onFocusWithin (e : SyntheticEvent)
| Call_onFocusWithinChange (b : bool)
| Call_onFocusWithinVisibleChange (b : bool).

Definition is_onAfterBlurWithin (c : Call) : bool :=
  match c with Call_onAfterBlurWithin _ => true | _ => false end.

(** ** Mutable data *)

(** [stateRef.current] of a hook instance. *)
Record State := {
  isFocused : bool;
  isFocusVisible : bool
}.

(** The closure registered on [document] by the before-blur listener.  It
    captures [onAfterBlurWithin] of the render that created it; here, whether
    that callback was supplied. *)
Record AfterBlurListener := {
  captured_onAfterBlurWithin : bool
}.

(** Modelled from the spec: the handle object returned by [useEvent] (its
    file is not part of the sources at hand).  It exposes
    [setListener(target, callbackOrNull)]; a handle keeps at most one listener
    per target, a new registration replaces the previous one, and passing
    null deregisters.  The map is keyed by the target's identity. *)
Definition setListener (target : Node) (callback : option AfterBlurListener)
  (handle : gmap nat AfterBlurListener) : gmap nat AfterBlurListener :=
  match callback with
  | Some l => <[nodeId target := l]> handle
  | None => delete (nodeId target) handle
  end.

Record World := {
  isGlobalFocusVisible : bool;
  state : State;
  afterBlurHandle : gmap nat AfterBlurListener
}.

(** The module starts with [isGlobalFocusVisible = true]; a hook starts with
    [{isFocused: false, isFocusVisible: false}] and no listener on
    [document].  Worlds are those of a mounted hook: [useFocusLifecycles] has
    run, so [handleGlobalFocusVisibleEvent] is installed on [window]. *)
Definition initialWorld : World :=
  {| isGlobalFocusVisible := true;
     state := {| isFocused := false; isFocusVisible := false |};
     afterBlurHandle := ∅ |}.

(** ** The monad of listeners *)

Definition M (A : Type) : Type := World -> A * World * list Call.

#[global] Instance M_ret : MRet M := fun A a w => (a, w, []).
#[global] Instance M_bind : MBind M := fun A B k m w =>
  let '(a, w1, t1) := m w in
  let '(b, w2, t2) := k a w1 in
  (b, w2, t1 ++ t2).

Definition world_after {A} (m : M A) (w : World) : World := snd (fst (m w)).
Definition calls_of {A} (m : M A) (w : World) : list Call := snd (m w).

Definition skip : M unit := mret tt.
Definition gets {A} (f : World -> A) : M A := fun w => (f w, w, []).
Definition invoke (c : Call) : M unit := fun w => (tt, w, [c]).

Definition set_isGlobalFocusVisible (b : bool) : M unit := fun w =>
  (tt, {| isGlobalFocusVisible := b; state := state w;
          afterBlurHandle := afterBlurHandle w |}, []).

Definition set_isFocused (b : bool) : M unit := fun w =>
  (tt, {| isGlobalFocusVisible := isGlobalFocusVisible w;
          state := {| isFocused := b;
                      isFocusVisible := isFocusVisible (state w) |};
          afterBlurHandle := afterBlurHandle w |}, []).

Definition set_isFocusVisible (b : bool) : M unit := fun w =>
  (tt, {| isGlobalFocusVisible := isGlobalFocusVisible w;
          state := {| isFocused := isFocused (state w);
                      isFocusVisible := b |};
          afterBlurHandle := afterBlurHandle w |}, []).

Definition afterBlurHandle_setListener (target : Node)
  (callback : option AfterBlurListener) : M unit := fun w =>
  (tt, {| isGlobalFocusVisible := isGlobalFocusVisible w;
          state := state w;
          afterBlurHandle := setListener target callback (afterBlurHandle w) |},
   []).

(** [if (cb) { cb(arg); }] for an optional callback. *)
Definition call_if (supplied : bool) (c : Call) : M unit :=
  if supplied then invoke c else skip.

(** [disabled] is an optional boolean; both [disabled === true] and the
    truthiness test [if (disabled)] hold exactly for the value [true]. *)
Definition is_disabled (disabled : option bool) : bool :=
  match disabled with
  | Some true => true
  | _ => false
  end.

(** ** Module-level functions *)

Section Platform.

(** [isMac] and [hasPointerEvents] are computed once, when the module is
    loaded, from [window.navigator.platform] and [window.PointerEvent]. *)
Variable isMac : bool.
Variable hasPointerEvents : bool.

Definition globalFocusVisibleEvents : list string :=
  if hasPointerEvents
  then ["keydown"; "pointermove"; "pointerdown"; "pointerup"]
  else ["keydown"; "mousedown"; "mousemove"; "mouseup"; "touchmove";
        "touchstart"; "touchend"].

Definition isValidKey (nativeEvent : NativeEvent) : bool :=
  negb (metaKey nativeEvent || (negb isMac && altKey nativeEvent)
        || ctrlKey nativeEvent).

Definition isTextInput (nativeEvent : NativeEvent) : bool :=
  if String.eqb (key nativeEvent) "Tab" || String.eqb (key nativeEvent) "Esacpe"
  then false
  else
    String.eqb (tagName (target nativeEvent)) "INPUT"
    || String.eqb (tagName (target nativeEvent)) "TEXTAREA"
    || isContentEditable (target nativeEvent).

Definition handleGlobalFocusVisibleEvent (nativeEvent : NativeEvent) : M unit :=
  if String.eqb (type nativeEvent) "keydown" then
    if isValidKey nativeEvent then set_isGlobalFocusVisible true else skip
  else
    if String.eqb (nodeName (target nativeEvent)) "HTML" then skip
    else set_isGlobalFocusVisible false.

Definition handleFocusVisibleTargetEvents (event : SyntheticEvent)
  (callback : bool -> M unit) : M unit :=
  if String.eqb (eventType event) "keydown" then
    if isValidKey (nativeEvent event) && negb (isTextInput (nativeEvent event))
    then callback true
    else skip
  else callback false.

(** The event types of [useFocusVisibleInputHandles]. *)
Definition focusVisibleInputEvents : list string :=
  ["mousedown"; if hasPointerEvents then "pointerdown" else "touchstart";
   "keydown"].

Definition listens (types : list string) (t : string) : bool :=
  existsb (String.eqb t) types.

End Platform.

(** The target of [useFocusWithin]: a scope instance offers [containsNode],
    a DOM node offers [contains]. *)
Record FocusWithinTarget := {
  containsNode : option (Node -> bool);
  contains : Node -> bool
}.

Definition isRelatedTargetWithin (focusWithinTarget : FocusWithinTarget)
  (relatedTarget : option Node) : bool :=
  match relatedTarget with
  | None => false
  | Some r =>
      match containsNode focusWithinTarget with
      | Some f => f r
      | None => contains focusWithinTarget r
      end
  end.

(** ** useFocus *)

Module UseFocus.

(** [UseFocusOptions].  A callback field says whether the callback was
    supplied. *)
Record Options := {
  disabled : option bool;
  onBlur : bool;
  onFocus : bool;
  onFocusChange : bool;
  onFocusVisibleChange : bool
}.

(** What the host can deliver to the listeners of one [useFocus] instance. *)
Inductive Dispatch :=
| FocusIn (event : SyntheticEvent)
| FocusOut (event : SyntheticEvent)
| TargetInput (event : SyntheticEvent)
| WindowInput (nativeEvent : NativeEvent).

Section Hook.

Variable isMac : bool.
Variable hasPointerEvents : bool.
Variable opts : Options.
Variable focusTarget : Node.

(** The callback handed to [setFocusVisibleListeners]. *)
Definition focusVisibleCallback (isFocusVisible' : bool) : M unit :=
  st ← gets state;
  if isFocused st && negb (Bool.eqb (isFocusVisible st) isFocusVisible') then
    set_isFocusVisible isFocusVisible';;
    call_if (onFocusVisibleChange opts) (Call_onFocusVisibleChange isFocusVisible')
  else skip.

(** The listener that [setFocusVisibleListeners] sets on each of the
    focus-visible handles. *)
Definition focusVisibleListener (event : SyntheticEvent) : M unit :=
  handleFocusVisibleTargetEvents isMac event focusVisibleCallback.

(** The listener set on [focusHandle]. *)
Definition focusListener (event : SyntheticEvent) : M unit :=
  if is_disabled (disabled opts) then skip
  else
    st ← gets state;
    if negb (isFocused st) && same_node focusTarget (eventTarget event) then
      set_isFocused true;;
      g ← gets isGlobalFocusVisible;
      set_isFocusVisible g;;
      call_if (onFocus opts) (Call_onFocus event);;
      call_if (onFocusChange opts) (Call_onFocusChange true);;
      st' ← gets state;
      if isFocusVisible st' && onFocusVisibleChange opts
      then invoke (Call_onFocusVisibleChange true)
      else skip
    else skip.

(** The listener set on [blurHandle]. *)
Definition blurListener (event : SyntheticEvent) : M unit :=
  if is_disabled (disabled opts) then skip
  else
    st ← gets state;
    if isFocused st then
      set_isFocused false;;
      g ← gets isGlobalFocusVisible;
      set_isFocusVisible g;;
      call_if (onBlur opts) (Call_onBlur event);;
      call_if (onFocusChange opts) (Call_onFocusChange false);;
      st' ← gets state;
      if isFocusVisible st' && onFocusVisibleChange opts
      then invoke (Call_onFocusVisibleChange false)
      else skip
    else skip.

(** Modelled from the spec: the host's delivery of the named event
    subscriptions (the event system is not part of the sources at hand).
    The listeners exist only when the target is an element
    ([focusTarget.nodeType === 1]); a device-input event reaches the
    focus-visible listener when its type is one of the three subscribed
    types, a window event reaches the global handler when its type is one of
    [globalFocusVisibleEvents]. *)
Definition deliver (d : Dispatch) : M unit :=
  match d with
  | WindowInput ne =>
      if listens (globalFocusVisibleEvents hasPointerEvents) (type ne)
      then handleGlobalFocusVisibleEvent isMac ne
      else skip
  | FocusIn e =>
      if Nat.eqb (nodeType focusTarget) 1 then focusListener e else skip
  | FocusOut e =>
      if Nat.eqb (nodeType focusTarget) 1 then blurListener e else skip
  | TargetInput e =>
      if Nat.eqb (nodeType focusTarget) 1
         && listens (focusVisibleInputEvents hasPointerEvents) (eventType e)
      then focusVisibleListener e
      else skip
  end.

End Hook.

(** A run of the hook: each event is handled by the listeners of the render
    current at that moment, hence the options paired with every event;
    [stateRef] persists across renders. *)
Fixpoint run (isMac hasPointerEvents : bool) (focusTarget : Node)
  (ds : list (Options * Dispatch)) : M unit :=
  match ds with
  | [] => skip
  | (opts, d) :: ds' =>
      deliver isMac hasPointerEvents opts focusTarget d;;
      run isMac hasPointerEvents focusTarget ds'
  end.

End UseFocus.

(** ** useFocusWithin *)

Module UseFocusWithin.

(** [UseFocusWithinOptions]. *)
Record Options := {
  disabled : option bool;
  onAfterBlurWithin : bool;
  onBeforeBlurWithin : bool;
  onBlurWithin : bool;
  onFocusWithin : bool;
  onFocusWithinChange : bool;
  onFocusWithinVisibleChange : bool
}.

Inductive Dispatch :=
| FocusIn (event : SyntheticEvent)
| FocusOut (event : SyntheticEvent)
| BeforeBlur (event : SyntheticEvent)
| AfterBlur (event : SyntheticEvent)
| TargetInput (event : SyntheticEvent)
| WindowInput (nativeEvent : NativeEvent).

Section Hook.

Variable isMac : bool.
Variable hasPointerEvents : bool.
Variable opts : Options.
Variable focusWithinTarget : FocusWithinTarget.

(** The callback handed to [setFocusVisibleListeners]. *)
Definition focusVisibleCallback (isFocusVisible' : bool) : M unit :=
  st ← gets state;
  if isFocused st && negb (Bool.eqb (isFocusVisible st) isFocusVisible') then
    set_isFocusVisible isFocusVisible';;
    call_if (onFocusWithinVisibleChange opts)
      (Call_onFocusWithinVisibleChange isFocusVisible')
  else skip.

(** The listener that [setFocusVisibleListeners] sets on each of the
    focus-visible handles. *)
Definition focusVisibleListener (event : SyntheticEvent) : M unit :=
  handleFocusVisibleTargetEvents isMac event focusVisibleCallback.

(** The listener set on [focusHandle]. *)
Definition focusListener (event : SyntheticEvent) : M unit :=
  if is_disabled (disabled opts) then skip
  else
    st ← gets state;
    (if negb (isFocused st) then
       set_isFocused true;;
       g ← gets isGlobalFocusVisible;
       set_isFocusVisible g;;
       call_if (onFocusWithinChange opts) (Call_onFocusWithinChange true);;
       st' ← gets state;
       if isFocusVisible st' && onFocusWithinVisibleChange opts
       then invoke (Call_onFocusWithinVisibleChange true)
       else skip
     else skip);;
    st ← gets state;
    g ← gets isGlobalFocusVisible;
    (if negb (isFocusVisible st) && g then
       set_isFocusVisible g;;
       call_if (onFocusWithinVisibleChange opts)
         (Call_onFocusWithinVisibleChange true)
     else skip);;
    call_if (onFocusWithin opts) (Call_onFocusWithin event).

(** The listener set on [blurHandle]. *)
Definition blurListener (event : SyntheticEvent) : M unit :=
  if is_disabled (disabled opts) then skip
  else
    st ← gets state;
    if isFocused st
       && negb (isRelatedTargetWithin focusWithinTarget
                  (relatedTarget (nativeEvent event)))
    then
      set_isFocused false;;
      call_if (onFocusWithinChange opts) (Call_onFocusWithinChange false);;
      st' ← gets state;
      (if isFocusVisible st' && onFocusWithinVisibleChange opts
       then invoke (Call_onFocusWithinVisibleChange false)
       else skip);;
      call_if (onBlurWithin opts) (Call_onBlurWithin event)
    else skip.

(** The one-shot listener that the before-blur listener registers on
    [document]. *)
Definition afterBlurListener (l : AfterBlurListener)
  (afterBlurEvent : SyntheticEvent) : M unit :=
  call_if (captured_onAfterBlurWithin l) (Call_onAfterBlurWithin afterBlurEvent);;
  afterBlurHandle_setListener document None.

(** The listener set on [beforeBlurHandle]. *)
Definition beforeBlurListener (event : SyntheticEvent) : M unit :=
  if is_disabled (disabled opts) then skip
  else
    if onBeforeBlurWithin opts then
      invoke (Call_onBeforeBlurWithin event);;
      afterBlurHandle_setListener document
        (Some {| captured_onAfterBlurWithin := onAfterBlurWithin opts |})
    else skip.

(** Modelled from the spec: the host's delivery of the named event
    subscriptions (the event system is not part of the sources at hand).
    An after-blur signal runs the listener that the after-blur handle holds
    for [document], if there is one. *)
Definition deliver (d : Dispatch) : M unit :=
  match d with
  | WindowInput ne =>
      if listens (globalFocusVisibleEvents hasPointerEvents) (type ne)
      then handleGlobalFocusVisibleEvent isMac ne
      else skip
  | FocusIn e => focusListener e
  | FocusOut e => blurListener e
  | BeforeBlur e => beforeBlurListener e
  | AfterBlur e =>
      h ← gets afterBlurHandle;
      match h !! nodeId document with
      | Some l => afterBlurListener l e
      | None => skip
      end
  | TargetInput e =>
      if listens (focusVisibleInputEvents hasPointerEvents) (eventType e)
      then focusVisibleListener e
      else skip
  end.

End Hook.

Fixpoint run (isMac hasPointerEvents : bool)
  (focusWithinTarget : FocusWithinTarget)
  (ds : list (Options * Dispatch)) : M unit :=
  match ds with
  | [] => skip
  | (opts, d) :: ds' =>
      deliver isMac hasPointerEvents opts focusWithinTarget d;;
      run isMac hasPointerEvents focusWithinTarget ds'
  end.

End UseFocusWithin.

(** * Vocabulary of the properties *)

(** The calls made by an optional callback. *)
Definition supplied (b : bool) (c : Call) : list Call :=
  if b then [c] else [].

(** A listener takes a fresh snapshot at an edge: whenever running it flips
    [isFocused], the [isFocusVisible] it leaves is the global guess of that
    moment. *)
Definition snapshots_at_edge (m : M unit) : Prop :=
  forall w : World,
    isFocused (state (world_after m w)) <> isFocused (state w) ->
    isFocusVisible (state (world_after m w)) = isGlobalFocusVisible w.

(** A disabled [useFocus] tracker that holds focus reacts to a device-input
    event of type [ty] on its target: after some run from the initial world
    the tracker is focused, the current render has [disabled = true], and the
    event flips the stored visibility and calls [onFocusVisibleChange]. *)
Definition useFocus_reacts_when_disabled (isMac hasPointerEvents : bool)
  (ty : string) : Prop :=
  exists (focusTarget : Node) (pre : list (UseFocus.Options * UseFocus.Dispatch))
    (opts : UseFocus.Options) (event : SyntheticEvent) (w : World),
    w = world_after (UseFocus.run isMac hasPointerEvents focusTarget pre)
          initialWorld
    /\ UseFocus.disabled opts = Some true
    /\ isFocused (state w) = true
    /\ eventType event = ty
    /\ isFocusVisible
         (state (world_after
                   (UseFocus.deliver isMac hasPointerEvents opts focusTarget
                      (UseFocus.TargetInput event)) w))
       = negb (isFocusVisible (state w))
    /\ calls_of (UseFocus.deliver isMac hasPointerEvents opts focusTarget
                   (UseFocus.TargetInput event)) w
       = [Call_onFocusVisibleChange false].

(** The same for a [useFocusWithin] tracker and
    [onFocusWithinVisibleChange]. *)
Definition useFocusWithin_reacts_when_disabled (isMac hasPointerEvents : bool)
  (ty : string) : Prop :=
  exists (focusWithinTarget : FocusWithinTarget)
    (pre : list (UseFocusWithin.Options * UseFocusWithin.Dispatch))
    (opts : UseFocusWithin.Options) (event : SyntheticEvent) (w : World),
    w = world_after
          (UseFocusWithin.run isMac hasPointerEvents focusWithinTarget pre)
          initialWorld
    /\ UseFocusWithin.disabled opts = Some true
    /\ isFocused (state w) = true
    /\ eventType event = ty
    /\ isFocusVisible
         (state (world_after
                   (UseFocusWithin.deliver isMac hasPointerEvents opts
                      focusWithinTarget (UseFocusWithin.TargetInput event)) w))
       = negb (isFocusVisible (state w))
    /\ calls_of (UseFocusWithin.deliver isMac hasPointerEvents opts
                   focusWithinTarget (UseFocusWithin.TargetInput event)) w
       = [Call_onFocusWithinVisibleChange false].

(** The world with another content of the after-blur handle. *)
Definition with_afterBlurHandle (w : World) (h : gmap nat AfterBlurListener)
  : World :=
  {| isGlobalFocusVisible := isGlobalFocusVisible w; state := state w;
     afterBlurHandle := h |}.

(** The two signals of the blur pair, and a sequence of them delivered to
    the listeners of one render. *)
Inductive BlurSignal :=
| BeforeBlurSignal (e : SyntheticEvent)
| AfterBlurSignal (e : SyntheticEvent).

Definition signal_dispatch (s : BlurSignal) : UseFocusWithin.Dispatch :=
  match s with
  | BeforeBlurSignal e => UseFocusWithin.BeforeBlur e
  | AfterBlurSignal e => UseFocusWithin.AfterBlur e
  end.

Definition blur_signals (opts : UseFocusWithin.Options) (ss : list BlurSignal)
  : list (UseFocusWithin.Options * UseFocusWithin.Dispatch) :=
  map (fun s => (opts, signal_dispatch s)) ss.

(** The pairing in the spec's words: every before-blur calls
    [onBeforeBlurWithin] and arms a one-shot listener; an after-blur calls
    [onAfterBlurWithin] when a listener is armed, and disarms.  This
    definition is written from the spec, to be compared with the runs of
    [UseFocusWithin.run]. *)
Fixpoint pairing (armed : bool) (ss : list BlurSignal) : list Call :=
  match ss with
  | [] => []
  | BeforeBlurSignal e :: ss' => Call_onBeforeBlurWithin e :: pairing true ss'
  | AfterBlurSignal e :: ss' =>
      supplied armed (Call_onAfterBlurWithin e) ++ pairing false ss'
  end.

(** The listener that a render with [onAfterBlurWithin] registers. *)
Definition armedListener : AfterBlurListener :=
  {| captured_onAfterBlurWithin := true |}.

(** No call in the list is a call of [onAfterBlurWithin]. *)
Definition no_onAfterBlurWithin (calls : list Call) : Prop :=
  Forall (fun c => is_onAfterBlurWithin c = false) calls.

(** * Mounting *)

(** One call of [window.addEventListener] with the global handler: the
    event type and the two options that [trackGlobalFocusVisible] passes
    (the third argument is [{capture: true, passive: true}] when passive
    listeners are supported and the boolean [true], capture only,
    otherwise). *)
Record WindowListener := {
  listenerType : string;
  capture : bool;
  passive : bool
}.

(** The module-level [hasTrackedGlobalFocusVisible] flag, and the calls of
    [window.addEventListener] made so far, oldest first. *)
Record ModuleGlobals := {
  hasTrackedGlobalFocusVisible : bool;
  windowListeners : list WindowListener
}.

Definition initialGlobals : ModuleGlobals :=
  {| hasTrackedGlobalFocusVisible := false; windowListeners := [] |}.

Section Mount.

Variable hasPointerEvents : bool.
Variable passiveBrowserEventsSupported : bool.

Definition trackGlobalFocusVisible (listeners : list WindowListener)
  : list WindowListener :=
  fold_left
    (fun ls ty =>
       ls ++ [{| listenerType := ty; capture := true;
                 passive := passiveBrowserEventsSupported |}])
    (globalFocusVisibleEvents hasPointerEvents) listeners.

(** The effect of [useFocusLifecycles], run once when a hook instance
    mounts. *)
Definition useFocusLifecycles (m : ModuleGlobals) : ModuleGlobals :=
  if negb (hasTrackedGlobalFocusVisible m) then
    {| hasTrackedGlobalFocusVisible := true;
       windowListeners := trackGlobalFocusVisible (windowListeners m) |}
  else m.

(** [n] hook instances mount one after the other. *)
Fixpoint mounts (n : nat) (m : ModuleGlobals) : ModuleGlobals :=
  match n with
  | O => m
  | S n' => mounts n' (useFocusLifecycles m)
  end.

End Mount.

(** * Vocabulary of the further properties *)

(** The boolean that a call reports, for each of the three change
    callbacks. *)
Definition focusChange (c : Call) : option bool :=
  match c with Call_onFocusChange b => Some b | _ => None end.

Definition focusWithinChange (c : Call) : option bool :=
  match c with Call_onFocusWithinChange b => Some b | _ => None end.

Definition focusWithinVisibleChange (c : Call) : option bool :=
  match c with Call_onFocusWithinVisibleChange b => Some b | _ => None end.

(** The reports of a change callback along a list of calls. *)
Definition reports (proj : Call -> option bool) (calls : list Call)
  : list bool :=
  omap proj calls.

(** Every reported value is the negation of the one before it, [prev] being
    the value before the first report. *)
Fixpoint alternating (prev : bool) (l : list bool) : Prop :=
  match l with
  | [] => True
  | x :: l' => x = negb prev /\ alternating x l'
  end.

(** What a step that takes an observed boolean from [a] to [b] reports. *)
Definition edge (a b : bool) : list bool :=
  if Bool.eqb a b then [] else [b].

(** The visibility that a [useFocusWithin] subscriber has been told of. *)
Definition visibleWithin (w : World) : bool :=
  isFocused (state w) && isFocusVisible (state w).

Definition is_onBeforeBlurWithin (c : Call) : bool :=
  match c with Call_onBeforeBlurWithin _ => true | _ => false end.

Definition count (p : Call -> bool) (calls : list Call) : nat :=
  length (List.filter p calls).

(** 1 when the after-blur handle holds a listener for [document]. *)
Definition armed (w : World) : nat :=
  match afterBlurHandle w !! nodeId document with
  | Some _ => 1
  | None => 0
  end.

Definition is_WindowInput_focus (d : UseFocus.Dispatch) : bool :=
  match d with UseFocus.WindowInput _ => true | _ => false end.

Definition is_WindowInput_within (d : UseFocusWithin.Dispatch) : bool :=
  match d with UseFocusWithin.WindowInput _ => true | _ => false end.

(** A window event decides the global guess when the handler assigns it: a
    keydown with a valid key, or any other event whose target is not the
    HTML node. *)
Definition decisive (isMac : bool) (ne : NativeEvent) : bool :=
  if String.eqb (type ne) "keydown" then isValidKey isMac ne
  else negb (String.eqb (nodeName (target ne)) "HTML").

(** The target takes text: an input, a textarea or a content-editable
    element. *)
Definition takesText (n : Node) : bool :=
  String.eqb (tagName n) "INPUT" || String.eqb (tagName n) "TEXTAREA"
  || isContentEditable n.

(** * Concrete inputs *)

(** Three elements: an [<input>], a [<button>] and a link that lies outside
    of the tracked subtree. *)
Definition inputElement : Node :=
  {| nodeId := 1; nodeType := 1; nodeName := "INPUT"; tagName := "INPUT";
     isContentEditable := false |}.

Definition buttonElement : Node :=
  {| nodeId := 7; nodeType := 1; nodeName := "BUTTON"; tagName := "BUTTON";
     isContentEditable := false |}.

Definition outsideElement : Node :=
  {| nodeId := 9; nodeType := 1; nodeName := "A"; tagName := "A";
     isContentEditable := false |}.

(** A subtree, given by a DOM node, whose only descendant is the node with
    identity 2. *)
Definition subtree : FocusWithinTarget :=
  {| containsNode := None; contains := fun n => Nat.eqb (nodeId n) 2 |}.

(** An event of type [ty] on [t] with no modifier, no key and no related
    target. *)
Definition plainNative (ty : string) (t : Node) : NativeEvent :=
  {| type := ty; target := t; relatedTarget := None; metaKey := false;
     altKey := false; ctrlKey := false; key := "" |}.

Definition plainEvent (ty : string) (t : Node) : SyntheticEvent :=
  {| eventType := ty; eventTarget := t; nativeEvent := plainNative ty t |}.

(** An Escape key press on the input, a key press with the meta key held on
    the button, and a key press on [t] with or without the control key. *)
Definition escapeOnInput : NativeEvent :=
  {| type := "keydown"; target := inputElement; relatedTarget := None;
     metaKey := false; altKey := false; ctrlKey := false; key := "Escape" |}.

Definition metaKeydown : NativeEvent :=
  {| type := "keydown"; target := buttonElement; relatedTarget := None;
     metaKey := true; altKey := false; ctrlKey := false; key := "k" |}.

Definition keydownOn (t : Node) (k : string) (ctrl : bool) : SyntheticEvent :=
  {| eventType := "keydown"; eventTarget := t;
     nativeEvent :=
       {| type := "keydown"; target := t; relatedTarget := None;
          metaKey := false; altKey := false; ctrlKey := ctrl; key := k |} |}.

(** A focus-out event on the button, focus moving to [r]. *)
Definition blurTo (r : option Node) : SyntheticEvent :=
  {| eventType := "focusout"; eventTarget := buttonElement;
     nativeEvent :=
       {| type := "focusout"; target := buttonElement; relatedTarget := r;
          metaKey := false; altKey := false; ctrlKey := false; key := "" |} |}.

(** Options with every callback supplied; for [useFocusWithin] the two
    callbacks of the blur pair are chosen by the caller. *)
Definition focusOptions (d : option bool) : UseFocus.Options :=
  {| UseFocus.disabled := d; UseFocus.onBlur := true;
     UseFocus.onFocus := true; UseFocus.onFocusChange := true;
     UseFocus.onFocusVisibleChange := true |}.

Definition withinOptions (d : option bool) (before after : bool)
  : UseFocusWithin.Options :=
  {| UseFocusWithin.disabled := d;
     UseFocusWithin.onAfterBlurWithin := after;
     UseFocusWithin.onBeforeBlurWithin := before;
     UseFocusWithin.onBlurWithin := true;
     UseFocusWithin.onFocusWithin := true;
     UseFocusWithin.onFocusWithinChange := true;
     UseFocusWithin.onFocusWithinVisibleChange := true |}.

(** A blurred world after pointer activity, and a focused world with global
    guess [g] and stored visibility [v]. *)
Definition pointerWorld : World :=
  {| isGlobalFocusVisible := false;
     state := {| isFocused := false; isFocusVisible := false |};
     afterBlurHandle := ∅ |}.

Definition focusedWorld (g v : bool) : World :=
  {| isGlobalFocusVisible := g;
     state := {| isFocused := true; isFocusVisible := v |};
     afterBlurHandle := ∅ |}.

(** * Properties *)

(** ** Laws of the listener monad *)

Lemma world_after_bind {A B} (m : M A) (k : A -> M B) (w : World) :
  world_after (m ≫= k) w = world_after (k (fst (fst (m w)))) (world_after m w).
Proof.
  unfold world_after, mbind, M_bind.
  destruct (m w) as [[a w1] t1]; simpl.
  destruct (k a w1) as [[b w2] t2]; reflexivity.
Qed.

Lemma calls_of_bind {A B} (m : M A) (k : A -> M B) (w : World) :
  calls_of (m ≫= k) w
  = calls_of m w ++ calls_of (k (fst (fst (m w)))) (world_after m w).
Proof.
  unfold calls_of, world_after, mbind, M_bind.
  destruct (m w) as [[a w1] t1]; simpl.
  destruct (k a w1) as [[b w2] t2]; reflexivity.
Qed.

Lemma is_disabled_true (d : option bool) :
  is_disabled d = true <-> d = Some true.
Proof. destruct d as [[|]|]; simpl; split; congruence. Qed.

Lemma is_disabled_false (d : option bool) :
  is_disabled d = false <-> d <> Some true.
Proof. destruct d as [[|]|]; simpl; split; congruence. Qed.

Lemma same_node_true (a b : Node) :
  same_node a b = true <-> nodeId a = nodeId b.
Proof. apply Nat.eqb_eq. Qed.

Lemma same_node_false (a b : Node) :
  same_node a b = false <-> nodeId a <> nodeId b.
Proof. apply Nat.eqb_neq. Qed.

(** Case analysis on every test that a listener makes. *)
Ltac branch :=
  repeat (match goal with
          | |- context [if ?b then _ else _] => destruct b eqn:?
          | |- context [match ?o with Some _ => _ | None => _ end] =>
              destruct o eqn:?
          end; cbn).

(** Unfolding of the monad's operations, so that a listener applied to a
    world computes. *)
Ltac exec :=
  unfold world_after, calls_of, call_if, skip, gets, invoke, set_isFocused,
    set_isFocusVisible, set_isGlobalFocusVisible, afterBlurHandle_setListener,
    mbind, M_bind, mret, M_ret in *;
  cbn.

(** ** Key and input classification *)

Lemma isValidKey_spec (isMac : bool) (ne : NativeEvent) :
  isValidKey isMac ne = true
  <-> metaKey ne = false /\ ctrlKey ne = false
      /\ (altKey ne = false \/ isMac = true).
Proof.
  unfold isValidKey.
  destruct (metaKey ne), (ctrlKey ne), (altKey ne), isMac; simpl;
    intuition congruence.
Qed.

(** What [isTextInput] computes: the second excluded key is the misspelt
    ["Esacpe"]. *)
Lemma isTextInput_spec (ne : NativeEvent) :
  isTextInput ne = true
  <-> (key ne <> "Tab" /\ key ne <> "Esacpe")
      /\ (tagName (target ne) = "INPUT" \/ tagName (target ne) = "TEXTAREA"
          \/ isContentEditable (target ne) = true).
Proof.
  unfold isTextInput.
  destruct (String.eqb_spec (key ne) "Tab") as [Ht | Ht];
    destruct (String.eqb_spec (key ne) "Esacpe") as [He | He]; simpl;
    try (split; [discriminate | intros [[? ?] _]; contradiction]).
  destruct (String.eqb_spec (tagName (target ne)) "INPUT") as [Hi | Hi];
    destruct (String.eqb_spec (tagName (target ne)) "TEXTAREA") as [Ha | Ha];
    destruct (isContentEditable (target ne)); simpl;
    intuition congruence.
Qed.

(** C1: [isTextInput] is claimed to return false for every event whose key
    is Escape.  On a keydown with key ["Escape"] on an INPUT element the code
    returns true: the key it compares against is spelt ["Esacpe"]. *)
Theorem isTextInput_Escape_on_INPUT :
  key escapeOnInput = "Escape"
  /\ tagName (target escapeOnInput) = "INPUT"
  /\ isTextInput escapeOnInput = true.
Proof. repeat split. Qed.

(** ** The focus listener of useFocus *)

(** C3: a focus-in event delivered to a [useFocus] tracker that is not
    disabled and blurred, with the tracked element as event target, makes the
    state focused, stores the current global guess as [isFocusVisible] and
    calls, in this order, [onFocus(event)], [onFocusChange(true)] and, only
    when the stored guess is true, [onFocusVisibleChange(true)] (a callback
    that was not supplied is skipped); when one of the three preconditions
    fails nothing is changed and nothing is called. *)
Theorem useFocus_focusin (opts : UseFocus.Options) (focusTarget : Node)
  (event : SyntheticEvent) (w : World) :
  (UseFocus.disabled opts <> Some true ->
   isFocused (state w) = false ->
   nodeId focusTarget = nodeId (eventTarget event) ->
   world_after (UseFocus.focusListener opts focusTarget event) w
   = {| isGlobalFocusVisible := isGlobalFocusVisible w;
        state := {| isFocused := true;
                    isFocusVisible := isGlobalFocusVisible w |};
        afterBlurHandle := afterBlurHandle w |}
   /\ calls_of (UseFocus.focusListener opts focusTarget event) w
      = supplied (UseFocus.onFocus opts) (Call_onFocus event)
        ++ supplied (UseFocus.onFocusChange opts) (Call_onFocusChange true)
        ++ supplied (isGlobalFocusVisible w && UseFocus.onFocusVisibleChange opts)
             (Call_onFocusVisibleChange true))
  /\ (UseFocus.disabled opts = Some true
      \/ isFocused (state w) = true
      \/ nodeId focusTarget <> nodeId (eventTarget event) ->
      world_after (UseFocus.focusListener opts focusTarget event) w = w
      /\ calls_of (UseFocus.focusListener opts focusTarget event) w = []).
Proof.
  split.
  - intros Hd Hf Ht.
    apply is_disabled_false in Hd. apply same_node_true in Ht.
    unfold UseFocus.focusListener. rewrite Hd. exec. rewrite Hf, Ht. cbn.
    destruct (UseFocus.onFocus opts), (UseFocus.onFocusChange opts),
      (UseFocus.onFocusVisibleChange opts), (isGlobalFocusVisible w);
      split; reflexivity.
  - intros H.
    unfold UseFocus.focusListener.
    destruct (is_disabled (UseFocus.disabled opts)) eqn:Hd; [split; reflexivity |].
    destruct H as [H | [H | H]].
    + apply is_disabled_true in H. congruence.
    + exec. rewrite H. split; reflexivity.
    + apply same_node_false in H. exec. rewrite H, andb_false_r.
      split; reflexivity.
Qed.

Lemma useFocus_focusin_witness :
  calls_of (UseFocus.focusListener (focusOptions None) buttonElement
              (plainEvent "focusin" buttonElement)) initialWorld
  = [Call_onFocus (plainEvent "focusin" buttonElement);
     Call_onFocusChange true; Call_onFocusVisibleChange true].
Proof.
  apply (proj1 (useFocus_focusin (focusOptions None) buttonElement
                  (plainEvent "focusin" buttonElement) initialWorld)).
  - discriminate.
  - reflexivity.
  - reflexivity.
Defined.

(** ** The global focus-visible heuristic *)

(** C4: on a keydown the global guess becomes true exactly when no blocking
    modifier is held (no meta key, no control key, no alt key unless the
    platform is Mac-style) and is left as it was otherwise, in particular
    whenever the meta key is held; on any other event the guess becomes false
    unless the target's nodeName is ["HTML"], in which case it is left as it
    was.  The handler touches nothing else and calls nothing. *)
Theorem handleGlobalFocusVisibleEvent_spec (isMac : bool) (ne : NativeEvent)
  (w : World) :
  (isValidKey isMac ne = true
   <-> metaKey ne = false /\ ctrlKey ne = false
       /\ (altKey ne = false \/ isMac = true))
  /\ (type ne = "keydown" -> isValidKey isMac ne = true ->
      isGlobalFocusVisible
        (world_after (handleGlobalFocusVisibleEvent isMac ne) w) = true)
  /\ (type ne = "keydown" -> isValidKey isMac ne = false ->
      world_after (handleGlobalFocusVisibleEvent isMac ne) w = w)
  /\ (type ne = "keydown" -> metaKey ne = true ->
      world_after (handleGlobalFocusVisibleEvent isMac ne) w = w)
  /\ (type ne <> "keydown" -> nodeName (target ne) <> "HTML" ->
      isGlobalFocusVisible
        (world_after (handleGlobalFocusVisibleEvent isMac ne) w) = false)
  /\ (type ne <> "keydown" -> nodeName (target ne) = "HTML" ->
      world_after (handleGlobalFocusVisibleEvent isMac ne) w = w)
  /\ state (world_after (handleGlobalFocusVisibleEvent isMac ne) w) = state w
  /\ afterBlurHandle (world_after (handleGlobalFocusVisibleEvent isMac ne) w)
     = afterBlurHandle w
  /\ calls_of (handleGlobalFocusVisibleEvent isMac ne) w = [].
Proof.
  split; [apply isValidKey_spec |].
  unfold handleGlobalFocusVisibleEvent.
  destruct (String.eqb_spec (type ne) "keydown") as [Hk | Hk];
    destruct (String.eqb_spec (nodeName (target ne)) "HTML") as [Hn | Hn];
    destruct (isValidKey isMac ne) eqn:Hv;
    repeat split; try reflexivity; try congruence; intros;
    try contradiction; try discriminate;
    unfold isValidKey in Hv;
    match goal with H : metaKey _ = true |- _ => rewrite H in Hv end;
    discriminate.
Qed.

Lemma handleGlobalFocusVisibleEvent_witness :
  world_after (handleGlobalFocusVisibleEvent false metaKeydown) pointerWorld
  = pointerWorld.
Proof.
  destruct (handleGlobalFocusVisibleEvent_spec false metaKeydown pointerWorld)
    as (_ & _ & _ & Hmeta & _).
  apply Hmeta; reflexivity.
Defined.

(** ** The blur listener of useFocusWithin *)

Lemma isRelatedTargetWithin_spec (t : FocusWithinTarget) (r : option Node) :
  isRelatedTargetWithin t r = true
  <-> exists n, r = Some n
      /\ match containsNode t with
         | Some f => f n = true
         | None => contains t n = true
         end.
Proof.
  unfold isRelatedTargetWithin. destruct r as [n |].
  - split.
    + intros H. exists n. split; [reflexivity |].
      destruct (containsNode t); exact H.
    + intros [n' [E H]]. injection E as <-.
      destruct (containsNode t); exact H.
  - split; [discriminate | intros [n [E _]]; discriminate].
Qed.

(** C5: a focus-out event delivered to a [useFocusWithin] tracker that is
    not disabled and focused.  The related target is within the subtree
    when it is not null and [containsNode] (if the target has that method,
    [contains] otherwise) says so.  If it is within, nothing is changed and
    nothing is called; if it is not, the state becomes blurred and
    [onFocusWithinChange(false)], then [onFocusWithinVisibleChange(false)]
    only when the stored visibility was true, then [onBlurWithin(event)] are
    called in this order (a callback that was not supplied is skipped). *)
Theorem useFocusWithin_focusout (opts : UseFocusWithin.Options)
  (focusWithinTarget : FocusWithinTarget) (event : SyntheticEvent)
  (w : World) :
  UseFocusWithin.disabled opts <> Some true ->
  isFocused (state w) = true ->
  (isRelatedTargetWithin focusWithinTarget (relatedTarget (nativeEvent event))
   = true
   <-> exists n, relatedTarget (nativeEvent event) = Some n
       /\ match containsNode focusWithinTarget with
          | Some f => f n = true
          | None => contains focusWithinTarget n = true
          end)
  /\ (isRelatedTargetWithin focusWithinTarget
        (relatedTarget (nativeEvent event)) = true ->
      world_after (UseFocusWithin.blurListener opts focusWithinTarget event) w
      = w
      /\ calls_of (UseFocusWithin.blurListener opts focusWithinTarget event) w
         = [])
  /\ (isRelatedTargetWithin focusWithinTarget
        (relatedTarget (nativeEvent event)) = false ->
      world_after (UseFocusWithin.blurListener opts focusWithinTarget event) w
      = {| isGlobalFocusVisible := isGlobalFocusVisible w;
           state := {| isFocused := false;
                       isFocusVisible := isFocusVisible (state w) |};
           afterBlurHandle := afterBlurHandle w |}
      /\ calls_of (UseFocusWithin.blurListener opts focusWithinTarget event) w
         = supplied (UseFocusWithin.onFocusWithinChange opts)
             (Call_onFocusWithinChange false)
           ++ supplied (isFocusVisible (state w)
                        && UseFocusWithin.onFocusWithinVisibleChange opts)
                (Call_onFocusWithinVisibleChange false)
           ++ supplied (UseFocusWithin.onBlurWithin opts)
                (Call_onBlurWithin event)).
Proof.
  intros Hd Hf. apply is_disabled_false in Hd.
  split; [apply isRelatedTargetWithin_spec |].
  unfold UseFocusWithin.blurListener. rewrite Hd.
  split; intros Hr; exec; rewrite Hf, Hr; cbn.
  - split; reflexivity.
  - destruct (UseFocusWithin.onFocusWithinChange opts),
      (UseFocusWithin.onFocusWithinVisibleChange opts),
      (UseFocusWithin.onBlurWithin opts), (isFocusVisible (state w));
      split; reflexivity.
Qed.

Lemma useFocusWithin_focusout_witness :
  calls_of (UseFocusWithin.blurListener (withinOptions None true true) subtree
              (blurTo (Some outsideElement))) (focusedWorld true true)
  = [Call_onFocusWithinChange false; Call_onFocusWithinVisibleChange false;
     Call_onBlurWithin (blurTo (Some outsideElement))].
Proof.
  destruct (useFocusWithin_focusout (withinOptions None true true) subtree
              (blurTo (Some outsideElement)) (focusedWorld true true))
    as (_ & _ & Hout).
  - discriminate.
  - reflexivity.
  - apply Hout. reflexivity.
Defined.

(** ** The disabled flag *)

(** C8: a focus-in or focus-out event delivered to a tracker ([useFocus] or
    [useFocusWithin]) whose [disabled] flag is true is ignored: the world,
    and with it [isFocused] and [isFocusVisible], is unchanged and no
    callback is called. *)
Theorem disabled_ignores_focus_events (event : SyntheticEvent) (w : World) :
  (forall (opts : UseFocus.Options) (focusTarget : Node),
      UseFocus.disabled opts = Some true ->
      (world_after (UseFocus.focusListener opts focusTarget event) w = w
       /\ calls_of (UseFocus.focusListener opts focusTarget event) w = [])
      /\ (world_after (UseFocus.blurListener opts event) w = w
          /\ calls_of (UseFocus.blurListener opts event) w = []))
  /\ (forall (opts : UseFocusWithin.Options)
        (focusWithinTarget : FocusWithinTarget),
         UseFocusWithin.disabled opts = Some true ->
         (world_after (UseFocusWithin.focusListener opts event) w = w
          /\ calls_of (UseFocusWithin.focusListener opts event) w = [])
         /\ (world_after
               (UseFocusWithin.blurListener opts focusWithinTarget event) w = w
             /\ calls_of
                  (UseFocusWithin.blurListener opts focusWithinTarget event) w
                = [])).
Proof.
  split; intros opts t Hd.
  - unfold UseFocus.focusListener, UseFocus.blurListener.
    rewrite Hd. repeat split.
  - unfold UseFocusWithin.focusListener, UseFocusWithin.blurListener.
    rewrite Hd. repeat split.
Qed.

Lemma disabled_ignores_focus_events_witness :
  world_after (UseFocus.focusListener (focusOptions (Some true)) buttonElement
                 (plainEvent "focusin" buttonElement)) initialWorld
  = initialWorld
  /\ calls_of (UseFocusWithin.blurListener (withinOptions (Some true) true true)
                 subtree (blurTo None)) (focusedWorld false true)
     = [].
Proof.
  destruct (disabled_ignores_focus_events (plainEvent "focusin" buttonElement)
              initialWorld) as [Hfocus _].
  destruct (disabled_ignores_focus_events (blurTo None)
              (focusedWorld false true)) as [_ Hwithin].
  split.
  - apply (Hfocus (focusOptions (Some true)) buttonElement). reflexivity.
  - apply (Hwithin (withinOptions (Some true) true true) subtree). reflexivity.
Defined.

(** ** Snapshots of the global guess at focus and blur edges *)

(** C2, as stated, fails: the blur listener of [useFocusWithin] does not
    read the global guess.  With focus visibly inside the subtree and the
    global guess meanwhile false, a focus-out to nowhere blurs the tracker
    and leaves the stored visibility true. *)
Lemma useFocusWithin_blur_no_snapshot :
  isFocused (state (focusedWorld false true)) = true
  /\ isGlobalFocusVisible (focusedWorld false true) = false
  /\ state (world_after
              (UseFocusWithin.blurListener (withinOptions None true true)
                 subtree (blurTo None)) (focusedWorld false true))
     = {| isFocused := false; isFocusVisible := true |}
  /\ ~ snapshots_at_edge
         (UseFocusWithin.blurListener (withinOptions None true true) subtree
            (blurTo None)).
Proof.
  repeat split.
  intros H. specialize (H (focusedWorld false true)).
  cbv in H. discriminate H. discriminate.
Qed.

(** C2, amended: the focus and blur listeners of [useFocus] and the focus
    listener of [useFocusWithin] store a fresh snapshot of the global guess
    at every edge; the blur listener of [useFocusWithin] leaves the stored
    [isFocusVisible] as it was. *)
Theorem snapshot_at_edges (event : SyntheticEvent) :
  (forall (opts : UseFocus.Options) (focusTarget : Node),
      snapshots_at_edge (UseFocus.focusListener opts focusTarget event)
      /\ snapshots_at_edge (UseFocus.blurListener opts event))
  /\ (forall (opts : UseFocusWithin.Options)
        (focusWithinTarget : FocusWithinTarget),
         snapshots_at_edge (UseFocusWithin.focusListener opts event)
         /\ forall w : World,
             isFocusVisible
               (state (world_after
                         (UseFocusWithin.blurListener opts focusWithinTarget
                            event) w))
             = isFocusVisible (state w)).
Proof.
  split; intros opts t; split; intros [g [f v] h].
  - unfold UseFocus.focusListener. exec. branch; cbn; congruence.
  - unfold UseFocus.blurListener. exec. branch; cbn; congruence.
  - unfold UseFocusWithin.focusListener. exec. branch; cbn; congruence.
  - unfold UseFocusWithin.blurListener. exec. branch; reflexivity.
Qed.

Lemma snapshot_at_edges_witness :
  isFocusVisible
    (state (world_after (UseFocus.blurListener (focusOptions None) (blurTo None))
              (focusedWorld false true)))
  = false.
Proof.
  apply (proj2 (proj1 (snapshot_at_edges (blurTo None)) (focusOptions None)
                  buttonElement)).
  cbv. discriminate.
Defined.

(** ** Device input on the tracked target *)

(** C7: the listener of the device-input events of a [useFocus] tracker.
    On a keydown the stored visibility is never turned false, and it is
    turned true only when the key is valid and the target is not taking text
    input; a valid keydown outside text input that arrives while the tracker
    is focused with stored visibility false turns it true and calls
    [onFocusVisibleChange(true)] once (when supplied); a keydown with the
    control key held changes nothing and calls nothing; and while the
    tracker is blurred no event changes anything or calls anything. *)
Theorem useFocus_device_input (isMac : bool) (opts : UseFocus.Options)
  (event : SyntheticEvent) (w : World) :
  (eventType event = "keydown" ->
   (isFocusVisible (state w) = true ->
    isFocusVisible
      (state (world_after (UseFocus.focusVisibleListener isMac opts event) w))
    = true)
   /\ (isFocusVisible
         (state (world_after (UseFocus.focusVisibleListener isMac opts event) w))
       <> isFocusVisible (state w) ->
       isFocusVisible
         (state (world_after (UseFocus.focusVisibleListener isMac opts event) w))
       = true
       /\ isValidKey isMac (nativeEvent event) = true
       /\ isTextInput (nativeEvent event) = false)
   /\ (isValidKey isMac (nativeEvent event) = true ->
       isTextInput (nativeEvent event) = false ->
       isFocused (state w) = true ->
       isFocusVisible (state w) = false ->
       isFocusVisible
         (state (world_after (UseFocus.focusVisibleListener isMac opts event) w))
       = true
       /\ calls_of (UseFocus.focusVisibleListener isMac opts event) w
          = supplied (UseFocus.onFocusVisibleChange opts)
              (Call_onFocusVisibleChange true))
   /\ (ctrlKey (nativeEvent event) = true ->
       world_after (UseFocus.focusVisibleListener isMac opts event) w = w
       /\ calls_of (UseFocus.focusVisibleListener isMac opts event) w = []))
  /\ (isFocused (state w) = false ->
      world_after (UseFocus.focusVisibleListener isMac opts event) w = w
      /\ calls_of (UseFocus.focusVisibleListener isMac opts event) w = []).
Proof.
  unfold UseFocus.focusVisibleListener, handleFocusVisibleTargetEvents,
    UseFocus.focusVisibleCallback.
  destruct w as [g [f v] h]. split.
  - intros Hk. rewrite Hk. cbn [String.eqb Ascii.eqb Bool.eqb].
    split; [| split; [| split]].
    + intros Hv. cbn in Hv. subst v. exec. branch; reflexivity.
    + exec.
      destruct (isValidKey isMac (nativeEvent event)),
        (isTextInput (nativeEvent event)), f, v; cbn; intros H;
        try contradiction; repeat split; try reflexivity;
        destruct (UseFocus.onFocusVisibleChange opts); cbn in H;
        solve [reflexivity | congruence].
    + intros Hv Ht Hf Hs. cbn in Hf, Hs. subst f v. rewrite Hv, Ht.
      exec. destruct (UseFocus.onFocusVisibleChange opts); split; reflexivity.
    + intros Hc. unfold isValidKey. rewrite Hc, orb_true_r. cbn.
      split; reflexivity.
  - intros Hf. cbn in Hf. subst f. exec. branch; split; reflexivity.
Qed.

Lemma useFocus_device_input_witness :
  calls_of (UseFocus.focusVisibleListener false (focusOptions None)
              (keydownOn buttonElement "Enter" false)) (focusedWorld true false)
  = [Call_onFocusVisibleChange true]
  /\ calls_of (UseFocus.focusVisibleListener false (focusOptions None)
                 (keydownOn buttonElement "Enter" true))
       (focusedWorld true false)
     = [].
Proof.
  destruct (useFocus_device_input false (focusOptions None)
              (keydownOn buttonElement "Enter" false) (focusedWorld true false))
    as [Hkey _].
  destruct (useFocus_device_input false (focusOptions None)
              (keydownOn buttonElement "Enter" true) (focusedWorld true false))
    as [Hctrl _].
  split.
  - apply (Hkey eq_refl); reflexivity.
  - apply (Hctrl eq_refl). reflexivity.
Defined.

(** ** Device input on a disabled tracker *)

(** C9: the disabled flag does not guard the device-input listeners.  For
    both trackers there is a reachable state, focus having been acquired
    before the tracker was disabled, in which a mousedown (on every
    platform) or a pointerdown (where pointer events exist) on the target
    changes the stored [isFocusVisible] and calls the visibility callback
    although [disabled] is true. *)
Theorem disabled_does_not_guard_device_input (isMac hasPointerEvents : bool) :
  useFocus_reacts_when_disabled isMac hasPointerEvents "mousedown"
  /\ useFocus_reacts_when_disabled isMac true "pointerdown"
  /\ useFocusWithin_reacts_when_disabled isMac hasPointerEvents "mousedown"
  /\ useFocusWithin_reacts_when_disabled isMac true "pointerdown".
Proof.
  repeat split.
  - exists buttonElement,
      [(focusOptions None, UseFocus.FocusIn (plainEvent "focusin" buttonElement))],
      (focusOptions (Some true)), (plainEvent "mousedown" buttonElement).
    eexists; split; [reflexivity |].
    destruct isMac, hasPointerEvents; repeat split.
  - exists buttonElement,
      [(focusOptions None, UseFocus.FocusIn (plainEvent "focusin" buttonElement))],
      (focusOptions (Some true)), (plainEvent "pointerdown" buttonElement).
    eexists; split; [reflexivity |].
    destruct isMac; repeat split.
  - exists subtree,
      [(withinOptions None true true,
        UseFocusWithin.FocusIn (plainEvent "focusin" buttonElement))],
      (withinOptions (Some true) true true),
      (plainEvent "mousedown" buttonElement).
    eexists; split; [reflexivity |].
    destruct isMac, hasPointerEvents; repeat split.
  - exists subtree,
      [(withinOptions None true true,
        UseFocusWithin.FocusIn (plainEvent "focusin" buttonElement))],
      (withinOptions (Some true) true true),
      (plainEvent "pointerdown" buttonElement).
    eexists; split; [reflexivity |].
    destruct isMac; repeat split.
Qed.

(** ** Runs of useFocusWithin *)

Lemma world_after_run_cons (isMac hasPointerEvents : bool)
  (t : FocusWithinTarget) (opts : UseFocusWithin.Options)
  (d : UseFocusWithin.Dispatch)
  (ds : list (UseFocusWithin.Options * UseFocusWithin.Dispatch)) (w : World) :
  world_after (UseFocusWithin.run isMac hasPointerEvents t ((opts, d) :: ds)) w
  = world_after (UseFocusWithin.run isMac hasPointerEvents t ds)
      (world_after (UseFocusWithin.deliver isMac hasPointerEvents opts t d) w).
Proof. cbn [UseFocusWithin.run]. apply world_after_bind. Qed.

Lemma calls_of_run_cons (isMac hasPointerEvents : bool)
  (t : FocusWithinTarget) (opts : UseFocusWithin.Options)
  (d : UseFocusWithin.Dispatch)
  (ds : list (UseFocusWithin.Options * UseFocusWithin.Dispatch)) (w : World) :
  calls_of (UseFocusWithin.run isMac hasPointerEvents t ((opts, d) :: ds)) w
  = calls_of (UseFocusWithin.deliver isMac hasPointerEvents opts t d) w
    ++ calls_of (UseFocusWithin.run isMac hasPointerEvents t ds)
         (world_after (UseFocusWithin.deliver isMac hasPointerEvents opts t d) w).
Proof. cbn [UseFocusWithin.run]. apply calls_of_bind. Qed.

(** A before-blur on an enabled tracker with [onBeforeBlurWithin]: the
    callback is called and the listener is registered on [document]. *)
Lemma beforeBlurListener_arms (opts : UseFocusWithin.Options)
  (e : SyntheticEvent) (w : World) :
  UseFocusWithin.disabled opts <> Some true ->
  UseFocusWithin.onBeforeBlurWithin opts = true ->
  UseFocusWithin.beforeBlurListener opts e w
  = (tt,
     with_afterBlurHandle w
       (<[nodeId document :=
            {| captured_onAfterBlurWithin :=
                 UseFocusWithin.onAfterBlurWithin opts |}]>
          (afterBlurHandle w)),
     [Call_onBeforeBlurWithin e]).
Proof.
  intros Hd Hb. apply is_disabled_false in Hd.
  unfold UseFocusWithin.beforeBlurListener. rewrite Hd, Hb. reflexivity.
Qed.

(** A before-blur without [onBeforeBlurWithin] does nothing. *)
Lemma beforeBlurListener_absent (opts : UseFocusWithin.Options)
  (e : SyntheticEvent) (w : World) :
  UseFocusWithin.onBeforeBlurWithin opts = false ->
  UseFocusWithin.beforeBlurListener opts e w = (tt, w, []).
Proof.
  intros Hb. unfold UseFocusWithin.beforeBlurListener. rewrite Hb.
  destruct (is_disabled (UseFocusWithin.disabled opts)); reflexivity.
Qed.

(** An after-blur with a listener on [document]: the captured callback is
    called, when there is one, and the listener is removed. *)
Lemma afterBlur_armed (isMac hasPointerEvents : bool)
  (opts : UseFocusWithin.Options) (t : FocusWithinTarget)
  (e : SyntheticEvent) (w : World) (l : AfterBlurListener) :
  afterBlurHandle w !! nodeId document = Some l ->
  UseFocusWithin.deliver isMac hasPointerEvents opts t
    (UseFocusWithin.AfterBlur e) w
  = (tt, with_afterBlurHandle w (delete (nodeId document) (afterBlurHandle w)),
     supplied (captured_onAfterBlurWithin l) (Call_onAfterBlurWithin e)).
Proof.
  intros Hl. unfold UseFocusWithin.deliver, UseFocusWithin.afterBlurListener.
  unfold mbind, M_bind, gets. rewrite Hl.
  destruct (captured_onAfterBlurWithin l); reflexivity.
Qed.

(** An after-blur without a listener on [document] does nothing. *)
Lemma afterBlur_unarmed (isMac hasPointerEvents : bool)
  (opts : UseFocusWithin.Options) (t : FocusWithinTarget)
  (e : SyntheticEvent) (w : World) :
  afterBlurHandle w !! nodeId document = None ->
  UseFocusWithin.deliver isMac hasPointerEvents opts t
    (UseFocusWithin.AfterBlur e) w
  = (tt, w, []).
Proof.
  intros Hl. unfold UseFocusWithin.deliver.
  unfold mbind, M_bind, gets. rewrite Hl. reflexivity.
Qed.

Section BlurPair.

Variable isMac : bool.
Variable hasPointerEvents : bool.
Variable opts : UseFocusWithin.Options.
Variable focusWithinTarget : FocusWithinTarget.
Hypothesis enabled : UseFocusWithin.disabled opts <> Some true.
Hypothesis before : UseFocusWithin.onBeforeBlurWithin opts = true.
Hypothesis after : UseFocusWithin.onAfterBlurWithin opts = true.

Lemma beforeBlur_step (e : SyntheticEvent) (w : World) :
  UseFocusWithin.deliver isMac hasPointerEvents opts focusWithinTarget
    (UseFocusWithin.BeforeBlur e) w
  = (tt,
     with_afterBlurHandle w
       (<[nodeId document := armedListener]> (afterBlurHandle w)),
     [Call_onBeforeBlurWithin e]).
Proof.
  cbn [UseFocusWithin.deliver].
  rewrite (beforeBlurListener_arms opts e w enabled before), after.
  reflexivity.
Qed.

Lemma pairing_refined (ss : list BlurSignal) :
  forall (w : World) (armed : bool),
    afterBlurHandle w !! nodeId document
    = (if armed then Some armedListener else None) ->
    calls_of (UseFocusWithin.run isMac hasPointerEvents focusWithinTarget
                (blur_signals opts ss)) w
    = pairing armed ss.
Proof.
  induction ss as [| s ss IH]; intros w armed Hw; [reflexivity |].
  cbn [blur_signals map]. fold (blur_signals opts ss).
  rewrite calls_of_run_cons. destruct s as [e | e]; cbn [signal_dispatch pairing].
  - unfold calls_of at 1, world_after. rewrite beforeBlur_step. cbn [fst snd].
    rewrite (IH _ true); [reflexivity |].
    cbn [with_afterBlurHandle afterBlurHandle]. apply lookup_insert_eq.
  - destruct armed.
    + unfold calls_of at 1, world_after.
      rewrite (afterBlur_armed _ _ _ _ _ _ _ Hw). cbn [fst snd].
      rewrite (IH _ false); [reflexivity |].
      cbn [with_afterBlurHandle afterBlurHandle]. apply lookup_delete_eq.
    + unfold calls_of at 1, world_after.
      rewrite (afterBlur_unarmed _ _ _ _ _ _ Hw). cbn [fst snd].
      rewrite (IH _ false); [reflexivity | exact Hw].
Qed.

End BlurPair.

(** C6: a [useFocusWithin] tracker that is not disabled, with
    [onBeforeBlurWithin] and [onAfterBlurWithin] supplied.  On every
    sequence of before-blur and after-blur signals its calls are those of
    the pairing; a before-blur calls [onBeforeBlurWithin] and leaves a
    listener registered on [document]; an after-blur that finds it calls
    [onAfterBlurWithin] once and leaves none registered; and after two
    before-blurs in a row the handle holds a single registration, so that
    of two after-blurs that follow only the first calls
    [onAfterBlurWithin], once. *)
Theorem beforeBlur_afterBlur_pairing (isMac hasPointerEvents : bool)
  (opts : UseFocusWithin.Options) (focusWithinTarget : FocusWithinTarget) :
  UseFocusWithin.disabled opts <> Some true ->
  UseFocusWithin.onBeforeBlurWithin opts = true ->
  UseFocusWithin.onAfterBlurWithin opts = true ->
  (forall ss : list BlurSignal,
      calls_of (UseFocusWithin.run isMac hasPointerEvents focusWithinTarget
                  (blur_signals opts ss)) initialWorld
      = pairing false ss)
  /\ (forall (e : SyntheticEvent) (w : World),
         calls_of (UseFocusWithin.deliver isMac hasPointerEvents opts
                     focusWithinTarget (UseFocusWithin.BeforeBlur e)) w
         = [Call_onBeforeBlurWithin e]
         /\ afterBlurHandle
              (world_after
                 (UseFocusWithin.deliver isMac hasPointerEvents opts
                    focusWithinTarget (UseFocusWithin.BeforeBlur e)) w)
            !! nodeId document
            = Some armedListener)
  /\ (forall (e : SyntheticEvent) (w : World),
         afterBlurHandle w !! nodeId document = Some armedListener ->
         calls_of (UseFocusWithin.deliver isMac hasPointerEvents opts
                     focusWithinTarget (UseFocusWithin.AfterBlur e)) w
         = [Call_onAfterBlurWithin e]
         /\ afterBlurHandle
              (world_after
                 (UseFocusWithin.deliver isMac hasPointerEvents opts
                    focusWithinTarget (UseFocusWithin.AfterBlur e)) w)
            !! nodeId document
            = None)
  /\ (forall (e1 e2 a a' : SyntheticEvent) (w : World),
         afterBlurHandle
           (world_after
              (UseFocusWithin.run isMac hasPointerEvents focusWithinTarget
                 (blur_signals opts [BeforeBlurSignal e1; BeforeBlurSignal e2]))
              w)
         = <[nodeId document := armedListener]> (afterBlurHandle w)
         /\ calls_of
              (UseFocusWithin.run isMac hasPointerEvents focusWithinTarget
                 (blur_signals opts
                    [BeforeBlurSignal e1; BeforeBlurSignal e2;
                     AfterBlurSignal a; AfterBlurSignal a'])) w
            = [Call_onBeforeBlurWithin e1; Call_onBeforeBlurWithin e2;
               Call_onAfterBlurWithin a]).
Proof.
  intros Hd Hb Ha. split; [| split; [| split]].
  - intros ss. apply (pairing_refined _ _ _ _ Hd Hb Ha). reflexivity.
  - intros e w. unfold calls_of, world_after.
    rewrite (beforeBlur_step _ _ _ _ Hd Hb Ha). cbn [fst snd].
    split; [reflexivity |]. apply lookup_insert_eq.
  - intros e w Hw. unfold calls_of, world_after.
    rewrite (afterBlur_armed _ _ _ _ _ _ _ Hw). cbn [fst snd].
    split; [reflexivity |]. apply lookup_delete_eq.
  - intros e1 e2 a a' w. cbn [blur_signals map signal_dispatch].
    rewrite !world_after_run_cons, !calls_of_run_cons.
    unfold calls_of, world_after.
    rewrite !(beforeBlur_step _ _ _ _ Hd Hb Ha). cbn [fst snd].
    cbn [with_afterBlurHandle afterBlurHandle isGlobalFocusVisible state
           UseFocusWithin.run].
    rewrite insert_insert_eq.
    split; [reflexivity |].
    rewrite (afterBlur_armed _ _ _ _ _ _ armedListener)
      by apply lookup_insert_eq.
    cbn [fst snd with_afterBlurHandle afterBlurHandle].
    rewrite afterBlur_unarmed by apply lookup_delete_eq.
    reflexivity.
Qed.

Lemma beforeBlur_afterBlur_pairing_witness :
  calls_of
    (UseFocusWithin.run false true subtree
       (blur_signals (withinOptions None true true)
          [BeforeBlurSignal (plainEvent "beforeblur" buttonElement);
           BeforeBlurSignal (plainEvent "beforeblur" inputElement);
           AfterBlurSignal (plainEvent "afterblur" buttonElement);
           AfterBlurSignal (plainEvent "afterblur" inputElement)]))
    initialWorld
  = [Call_onBeforeBlurWithin (plainEvent "beforeblur" buttonElement);
     Call_onBeforeBlurWithin (plainEvent "beforeblur" inputElement);
     Call_onAfterBlurWithin (plainEvent "afterblur" buttonElement)].
Proof.
  destruct (beforeBlur_afterBlur_pairing false true
              (withinOptions None true true) subtree)
    as (_ & _ & _ & Htwice).
  - discriminate.
  - reflexivity.
  - reflexivity.
  - apply Htwice.
Defined.

(** ** After-blur without before-blur *)

(** Without [onBeforeBlurWithin], delivering any event to a tracker with
    no listener on [document] leaves none there and calls no
    [onAfterBlurWithin]. *)
Lemma deliver_stays_unarmed (isMac hasPointerEvents : bool)
  (opts : UseFocusWithin.Options) (t : FocusWithinTarget)
  (d : UseFocusWithin.Dispatch) (w : World) :
  UseFocusWithin.onBeforeBlurWithin opts = false ->
  afterBlurHandle w !! nodeId document = None ->
  afterBlurHandle
    (world_after (UseFocusWithin.deliver isMac hasPointerEvents opts t d) w)
  !! nodeId document = None
  /\ no_onAfterBlurWithin
       (calls_of (UseFocusWithin.deliver isMac hasPointerEvents opts t d) w).
Proof.
  intros Hb Hw. unfold no_onAfterBlurWithin.
  destruct d as [e | e | e | e | e | ne].
  - revert Hw. destruct w as [g [f v] h]. intros Hw.
    cbn [UseFocusWithin.deliver]. unfold UseFocusWithin.focusListener.
    exec. branch; (split; [exact Hw | repeat constructor]).
  - revert Hw. destruct w as [g [f v] h]. intros Hw.
    cbn [UseFocusWithin.deliver]. unfold UseFocusWithin.blurListener.
    exec. branch; (split; [exact Hw | repeat constructor]).
  - cbn [UseFocusWithin.deliver]. unfold world_after, calls_of.
    rewrite (beforeBlurListener_absent opts e w Hb).
    split; [exact Hw | constructor].
  - unfold world_after, calls_of.
    rewrite (afterBlur_unarmed _ _ _ _ _ _ Hw).
    split; [exact Hw | constructor].
  - revert Hw. destruct w as [g [f v] h]. intros Hw.
    cbn [UseFocusWithin.deliver].
    unfold UseFocusWithin.focusVisibleListener, handleFocusVisibleTargetEvents,
      UseFocusWithin.focusVisibleCallback.
    exec. branch; (split; [exact Hw | repeat constructor]).
  - revert Hw. destruct w as [g [f v] h]. intros Hw.
    cbn [UseFocusWithin.deliver]. unfold handleGlobalFocusVisibleEvent.
    exec. branch; (split; [exact Hw | repeat constructor]).
Qed.

Lemma run_stays_unarmed (isMac hasPointerEvents : bool)
  (t : FocusWithinTarget)
  (ds : list (UseFocusWithin.Options * UseFocusWithin.Dispatch)) :
  Forall (fun od => UseFocusWithin.onBeforeBlurWithin (fst od) = false) ds ->
  forall w : World,
    afterBlurHandle w !! nodeId document = None ->
    no_onAfterBlurWithin
      (calls_of (UseFocusWithin.run isMac hasPointerEvents t ds) w).
Proof.
  induction 1 as [| [opts d] ds Hb _ IH]; intros w Hw.
  - constructor.
  - rewrite calls_of_run_cons.
    destruct (deliver_stays_unarmed isMac hasPointerEvents opts t d w Hb Hw)
      as [Hw' Hc].
    apply Forall_app. split; [exact Hc | apply IH, Hw'].
Qed.

(** C10: in every run, from the hook's initial state, of a [useFocusWithin]
    tracker whose renders never supply [onBeforeBlurWithin], whatever else
    they supply, [onAfterBlurWithin] is never called. *)
Theorem onAfterBlurWithin_needs_onBeforeBlurWithin
  (isMac hasPointerEvents : bool) (focusWithinTarget : FocusWithinTarget)
  (ds : list (UseFocusWithin.Options * UseFocusWithin.Dispatch)) :
  Forall (fun od => UseFocusWithin.onBeforeBlurWithin (fst od) = false) ds ->
  forall e : SyntheticEvent,
    ~ In (Call_onAfterBlurWithin e)
        (calls_of
           (UseFocusWithin.run isMac hasPointerEvents focusWithinTarget ds)
           initialWorld).
Proof.
  intros Hds e Hin.
  pose proof (run_stays_unarmed isMac hasPointerEvents focusWithinTarget ds
                Hds initialWorld (lookup_empty _)) as Hrun.
  unfold no_onAfterBlurWithin in Hrun. rewrite List.Forall_forall in Hrun.
  specialize (Hrun _ Hin). discriminate Hrun.
Qed.

Lemma onAfterBlurWithin_needs_onBeforeBlurWithin_witness :
  ~ In (Call_onAfterBlurWithin (plainEvent "afterblur" buttonElement))
      (calls_of
         (UseFocusWithin.run false true subtree
            [(withinOptions None false true,
              UseFocusWithin.FocusIn (plainEvent "focusin" buttonElement));
             (withinOptions None false true,
              UseFocusWithin.BeforeBlur (plainEvent "beforeblur" buttonElement));
             (withinOptions None false true,
              UseFocusWithin.AfterBlur (plainEvent "afterblur" buttonElement))])
         initialWorld).
Proof.
  apply onAfterBlurWithin_needs_onBeforeBlurWithin.
  repeat constructor.
Defined.

(** * Further properties *)

(** ** The blur listener of useFocus *)

(** X1: a focus-out event delivered to a [useFocus] tracker that is not
    disabled and focused makes the state blurred, stores the current global
    guess as [isFocusVisible] and calls, in this order, [onBlur(event)],
    [onFocusChange(false)] and, only when the global guess is true,
    [onFocusVisibleChange(false)]; the visibility stored before the event
    plays no part.  A disabled or blurred tracker ignores the event. *)
Theorem useFocus_focusout (opts : UseFocus.Options) (event : SyntheticEvent)
  (w : World) :
  (UseFocus.disabled opts <> Some true ->
   isFocused (state w) = true ->
   world_after (UseFocus.blurListener opts event) w
   = {| isGlobalFocusVisible := isGlobalFocusVisible w;
        state := {| isFocused := false;
                    isFocusVisible := isGlobalFocusVisible w |};
        afterBlurHandle := afterBlurHandle w |}
   /\ calls_of (UseFocus.blurListener opts event) w
      = supplied (UseFocus.onBlur opts) (Call_onBlur event)
        ++ supplied (UseFocus.onFocusChange opts) (Call_onFocusChange false)
        ++ supplied (isGlobalFocusVisible w && UseFocus.onFocusVisibleChange opts)
             (Call_onFocusVisibleChange false))
  /\ (UseFocus.disabled opts = Some true \/ isFocused (state w) = false ->
      world_after (UseFocus.blurListener opts event) w = w
      /\ calls_of (UseFocus.blurListener opts event) w = []).
Proof.
  unfold UseFocus.blurListener. split.
  - intros Hd Hf. apply is_disabled_false in Hd. rewrite Hd.
    exec. rewrite Hf. cbn.
    destruct (UseFocus.onBlur opts), (UseFocus.onFocusChange opts),
      (UseFocus.onFocusVisibleChange opts), (isGlobalFocusVisible w);
      split; reflexivity.
  - intros [Hd | Hf].
    + rewrite Hd. split; reflexivity.
    + destruct (is_disabled (UseFocus.disabled opts)); [split; reflexivity |].
      exec. rewrite Hf. split; reflexivity.
Qed.

Lemma useFocus_focusout_witness :
  calls_of (UseFocus.blurListener (focusOptions None) (blurTo None))
    (focusedWorld true false)
  = [Call_onBlur (blurTo None); Call_onFocusChange false;
     Call_onFocusVisibleChange false].
Proof.
  apply (proj1 (useFocus_focusout (focusOptions None) (blurTo None)
                  (focusedWorld true false))).
  - discriminate.
  - reflexivity.
Defined.

(** ** The focus listener of useFocusWithin *)

(** X2: a focus-in event delivered to a [useFocusWithin] tracker that is not
    disabled.  While blurred it makes the state focused, stores the global
    guess and calls [onFocusWithinChange(true)], then
    [onFocusWithinVisibleChange(true)] when the guess is true, then
    [onFocusWithin(event)].  While focused it can only promote the stored
    visibility, to true when it is false and the global guess is true,
    calling [onFocusWithinVisibleChange(true)] then; [onFocusWithin(event)]
    is called in every case, last. *)
Theorem useFocusWithin_focusin (opts : UseFocusWithin.Options)
  (event : SyntheticEvent) (w : World) :
  UseFocusWithin.disabled opts <> Some true ->
  (isFocused (state w) = false ->
   world_after (UseFocusWithin.focusListener opts event) w
   = {| isGlobalFocusVisible := isGlobalFocusVisible w;
        state := {| isFocused := true;
                    isFocusVisible := isGlobalFocusVisible w |};
        afterBlurHandle := afterBlurHandle w |}
   /\ calls_of (UseFocusWithin.focusListener opts event) w
      = supplied (UseFocusWithin.onFocusWithinChange opts)
          (Call_onFocusWithinChange true)
        ++ supplied (isGlobalFocusVisible w
                     && UseFocusWithin.onFocusWithinVisibleChange opts)
             (Call_onFocusWithinVisibleChange true)
        ++ supplied (UseFocusWithin.onFocusWithin opts)
             (Call_onFocusWithin event))
  /\ (isFocused (state w) = true ->
      world_after (UseFocusWithin.focusListener opts event) w
      = {| isGlobalFocusVisible := isGlobalFocusVisible w;
           state := {| isFocused := true;
                       isFocusVisible :=
                         isFocusVisible (state w) || isGlobalFocusVisible w |};
           afterBlurHandle := afterBlurHandle w |}
      /\ calls_of (UseFocusWithin.focusListener opts event) w
         = supplied (negb (isFocusVisible (state w)) && isGlobalFocusVisible w
                     && UseFocusWithin.onFocusWithinVisibleChange opts)
             (Call_onFocusWithinVisibleChange true)
           ++ supplied (UseFocusWithin.onFocusWithin opts)
                (Call_onFocusWithin event)).
Proof.
  intros Hd. apply is_disabled_false in Hd.
  unfold UseFocusWithin.focusListener. rewrite Hd.
  destruct w as [g [f v] h].
  split; intros Hf; cbn in Hf; subst f; exec;
    destruct g, v, (UseFocusWithin.onFocusWithinChange opts),
      (UseFocusWithin.onFocusWithinVisibleChange opts),
      (UseFocusWithin.onFocusWithin opts); split; reflexivity.
Qed.

Lemma useFocusWithin_focusin_witness :
  calls_of (UseFocusWithin.focusListener (withinOptions None true true)
              (plainEvent "focusin" buttonElement)) (focusedWorld true false)
  = [Call_onFocusWithinVisibleChange true;
     Call_onFocusWithin (plainEvent "focusin" buttonElement)].
Proof.
  destruct (useFocusWithin_focusin (withinOptions None true true)
              (plainEvent "focusin" buttonElement) (focusedWorld true false))
    as [_ Hfocused].
  - discriminate.
  - apply Hfocused. reflexivity.
Defined.

(** ** Device input on the tracked target, continued *)

(** X3: a device-input event other than a keydown (mousedown, pointerdown,
    touchstart) handled by the listener of either tracker.  While the
    tracker is focused with stored visibility true it turns the stored
    visibility false and calls the visibility callback with false; in every
    other state it changes nothing and calls nothing. *)
Theorem pointer_input_demotes (isMac : bool) (event : SyntheticEvent)
  (w : World) :
  eventType event <> "keydown" ->
  (forall opts : UseFocus.Options,
      (isFocused (state w) = true -> isFocusVisible (state w) = true ->
       world_after (UseFocus.focusVisibleListener isMac opts event) w
       = {| isGlobalFocusVisible := isGlobalFocusVisible w;
            state := {| isFocused := true; isFocusVisible := false |};
            afterBlurHandle := afterBlurHandle w |}
       /\ calls_of (UseFocus.focusVisibleListener isMac opts event) w
          = supplied (UseFocus.onFocusVisibleChange opts)
              (Call_onFocusVisibleChange false))
      /\ (isFocused (state w) = false \/ isFocusVisible (state w) = false ->
          world_after (UseFocus.focusVisibleListener isMac opts event) w = w
          /\ calls_of (UseFocus.focusVisibleListener isMac opts event) w = []))
  /\ (forall opts : UseFocusWithin.Options,
         (isFocused (state w) = true -> isFocusVisible (state w) = true ->
          world_after (UseFocusWithin.focusVisibleListener isMac opts event) w
          = {| isGlobalFocusVisible := isGlobalFocusVisible w;
               state := {| isFocused := true; isFocusVisible := false |};
               afterBlurHandle := afterBlurHandle w |}
          /\ calls_of (UseFocusWithin.focusVisibleListener isMac opts event) w
             = supplied (UseFocusWithin.onFocusWithinVisibleChange opts)
                 (Call_onFocusWithinVisibleChange false))
         /\ (isFocused (state w) = false \/ isFocusVisible (state w) = false ->
             world_after (UseFocusWithin.focusVisibleListener isMac opts event) w
             = w
             /\ calls_of (UseFocusWithin.focusVisibleListener isMac opts event) w
                = [])).
Proof.
  intros Hk. apply String.eqb_neq in Hk.
  unfold UseFocus.focusVisibleListener, UseFocusWithin.focusVisibleListener,
    handleFocusVisibleTargetEvents, UseFocus.focusVisibleCallback,
    UseFocusWithin.focusVisibleCallback.
  rewrite Hk. destruct w as [g [f v] h].
  split; intros opts; split.
  - intros Hf Hv. cbn in Hf, Hv. subst f v. exec.
    destruct (UseFocus.onFocusVisibleChange opts); split; reflexivity.
  - intros H. exec. destruct f, v; try (split; reflexivity);
      destruct H; discriminate.
  - intros Hf Hv. cbn in Hf, Hv. subst f v. exec.
    destruct (UseFocusWithin.onFocusWithinVisibleChange opts);
      split; reflexivity.
  - intros H. exec. destruct f, v; try (split; reflexivity);
      destruct H; discriminate.
Qed.

Lemma pointer_input_demotes_witness :
  calls_of (UseFocus.focusVisibleListener false (focusOptions None)
              (plainEvent "mousedown" buttonElement)) (focusedWorld true true)
  = [Call_onFocusVisibleChange false].
Proof.
  destruct (pointer_input_demotes false (plainEvent "mousedown" buttonElement)
              (focusedWorld true true)) as [Hfocus _].
  - discriminate.
  - apply (Hfocus (focusOptions None)); reflexivity.
Defined.

(** X4: the listener of the device-input events of a [useFocusWithin]
    tracker, on a keydown.  The stored visibility is never turned false, and
    it is turned true only when the key is valid and the target is not
    taking text input; a valid keydown outside text input that arrives
    while the tracker is focused with stored visibility false turns it true
    and calls [onFocusWithinVisibleChange(true)]; a keydown with an invalid
    key changes nothing and calls nothing. *)
Theorem useFocusWithin_keydown (isMac : bool) (opts : UseFocusWithin.Options)
  (event : SyntheticEvent) (w : World) :
  eventType event = "keydown" ->
  (isFocusVisible (state w) = true ->
   isFocusVisible
     (state (world_after
               (UseFocusWithin.focusVisibleListener isMac opts event) w))
   = true)
  /\ (isFocusVisible
        (state (world_after
                  (UseFocusWithin.focusVisibleListener isMac opts event) w))
      <> isFocusVisible (state w) ->
      isFocused (state w) = true
      /\ isValidKey isMac (nativeEvent event) = true
      /\ isTextInput (nativeEvent event) = false)
  /\ (isValidKey isMac (nativeEvent event) = true ->
      isTextInput (nativeEvent event) = false ->
      isFocused (state w) = true ->
      isFocusVisible (state w) = false ->
      world_after (UseFocusWithin.focusVisibleListener isMac opts event) w
      = {| isGlobalFocusVisible := isGlobalFocusVisible w;
           state := {| isFocused := true; isFocusVisible := true |};
           afterBlurHandle := afterBlurHandle w |}
      /\ calls_of (UseFocusWithin.focusVisibleListener isMac opts event) w
         = supplied (UseFocusWithin.onFocusWithinVisibleChange opts)
             (Call_onFocusWithinVisibleChange true))
  /\ (isValidKey isMac (nativeEvent event) = false ->
      world_after (UseFocusWithin.focusVisibleListener isMac opts event) w = w
      /\ calls_of (UseFocusWithin.focusVisibleListener isMac opts event) w
         = []).
Proof.
  intros Hk.
  unfold UseFocusWithin.focusVisibleListener, handleFocusVisibleTargetEvents,
    UseFocusWithin.focusVisibleCallback.
  rewrite Hk. cbn [String.eqb Ascii.eqb Bool.eqb].
  destruct w as [g [f v] h]. split; [| split; [| split]].
  - intros Hv. cbn in Hv. subst v. exec. branch; reflexivity.
  - exec.
    destruct (isValidKey isMac (nativeEvent event)),
      (isTextInput (nativeEvent event)), f, v; cbn; intros H;
      try contradiction; repeat split; try reflexivity;
      destruct (UseFocusWithin.onFocusWithinVisibleChange opts); cbn in H;
      congruence.
  - intros Hv Ht Hf Hs. cbn in Hf, Hs. subst f v. rewrite Hv, Ht.
    exec. destruct (UseFocusWithin.onFocusWithinVisibleChange opts);
      split; reflexivity.
  - intros Hv. rewrite Hv. split; reflexivity.
Qed.

Lemma useFocusWithin_keydown_witness :
  calls_of (UseFocusWithin.focusVisibleListener false
              (withinOptions None true true)
              (keydownOn buttonElement "Enter" false)) (focusedWorld true false)
  = [Call_onFocusWithinVisibleChange true].
Proof.
  destruct (useFocusWithin_keydown false (withinOptions None true true)
              (keydownOn buttonElement "Enter" false) (focusedWorld true false)
              eq_refl) as (_ & _ & Hpromote & _).
  apply Hpromote; reflexivity.
Defined.

(** X5: key presses and text entry.  A keydown on a target that takes text
    (an input, a textarea, a content-editable element) changes nothing and
    calls nothing in either tracker, unless the key is ["Tab"] or the
    string ["Esacpe"]; a Tab keydown with a valid key, on any target, while
    the tracker is focused with stored visibility false, turns the stored
    visibility true and calls the visibility callback with true. *)
Theorem keydown_and_text_entry (isMac : bool) (event : SyntheticEvent)
  (w : World) :
  eventType event = "keydown" ->
  (takesText (target (nativeEvent event)) = true ->
   key (nativeEvent event) <> "Tab" ->
   key (nativeEvent event) <> "Esacpe" ->
   (forall opts : UseFocus.Options,
       world_after (UseFocus.focusVisibleListener isMac opts event) w = w
       /\ calls_of (UseFocus.focusVisibleListener isMac opts event) w = [])
   /\ (forall opts : UseFocusWithin.Options,
          world_after (UseFocusWithin.focusVisibleListener isMac opts event) w
          = w
          /\ calls_of (UseFocusWithin.focusVisibleListener isMac opts event) w
             = []))
  /\ (key (nativeEvent event) = "Tab" ->
      isValidKey isMac (nativeEvent event) = true ->
      isFocused (state w) = true ->
      isFocusVisible (state w) = false ->
      (forall opts : UseFocus.Options,
          isFocusVisible
            (state (world_after
                      (UseFocus.focusVisibleListener isMac opts event) w))
          = true
          /\ calls_of (UseFocus.focusVisibleListener isMac opts event) w
             = supplied (UseFocus.onFocusVisibleChange opts)
                 (Call_onFocusVisibleChange true))
      /\ (forall opts : UseFocusWithin.Options,
             isFocusVisible
               (state (world_after
                         (UseFocusWithin.focusVisibleListener isMac opts event)
                         w))
             = true
             /\ calls_of (UseFocusWithin.focusVisibleListener isMac opts event) w
                = supplied (UseFocusWithin.onFocusWithinVisibleChange opts)
                    (Call_onFocusWithinVisibleChange true))).
Proof.
  intros Hk.
  unfold UseFocus.focusVisibleListener, UseFocusWithin.focusVisibleListener,
    handleFocusVisibleTargetEvents, UseFocus.focusVisibleCallback,
    UseFocusWithin.focusVisibleCallback.
  rewrite Hk. cbn [String.eqb Ascii.eqb Bool.eqb]. split.
  - intros Ht Hn1 Hn2.
    assert (Htext : isTextInput (nativeEvent event) = true).
    { apply isTextInput_spec. split; [split; assumption |].
      unfold takesText in Ht.
      apply orb_true_iff in Ht as [Ht | Ht];
        [apply orb_true_iff in Ht as [Ht | Ht] |].
      - left. apply String.eqb_eq, Ht.
      - right; left. apply String.eqb_eq, Ht.
      - right; right. exact Ht. }
    rewrite Htext, andb_false_r. split; intros opts; split; reflexivity.
  - intros Htab Hv Hf Hs.
    assert (Htext : isTextInput (nativeEvent event) = false).
    { unfold isTextInput. rewrite Htab. reflexivity. }
    rewrite Hv, Htext. destruct w as [g [f v] h].
    cbn in Hf, Hs. subst f v. exec.
    split; intros opts.
    + destruct (UseFocus.onFocusVisibleChange opts); split; reflexivity.
    + destruct (UseFocusWithin.onFocusWithinVisibleChange opts);
        split; reflexivity.
Qed.

Lemma keydown_and_text_entry_witness :
  calls_of (UseFocus.focusVisibleListener false (focusOptions None)
              (keydownOn inputElement "a" false)) (focusedWorld true false)
  = []
  /\ calls_of (UseFocus.focusVisibleListener false (focusOptions None)
                 (keydownOn inputElement "Tab" false)) (focusedWorld true false)
     = [Call_onFocusVisibleChange true].
Proof.
  destruct (keydown_and_text_entry false (keydownOn inputElement "a" false)
              (focusedWorld true false) eq_refl) as [Htyping _].
  destruct (keydown_and_text_entry false (keydownOn inputElement "Tab" false)
              (focusedWorld true false) eq_refl) as [_ Htab].
  split.
  - apply Htyping; [reflexivity | discriminate | discriminate].
  - apply Htab; reflexivity.
Defined.

(** ** Reports along a run *)

Lemma world_after_focus_run_cons (isMac hasPointerEvents : bool) (t : Node)
  (opts : UseFocus.Options) (d : UseFocus.Dispatch)
  (ds : list (UseFocus.Options * UseFocus.Dispatch)) (w : World) :
  world_after (UseFocus.run isMac hasPointerEvents t ((opts, d) :: ds)) w
  = world_after (UseFocus.run isMac hasPointerEvents t ds)
      (world_after (UseFocus.deliver isMac hasPointerEvents opts t d) w).
Proof. cbn [UseFocus.run]. apply world_after_bind. Qed.

Lemma calls_of_focus_run_cons (isMac hasPointerEvents : bool) (t : Node)
  (opts : UseFocus.Options) (d : UseFocus.Dispatch)
  (ds : list (UseFocus.Options * UseFocus.Dispatch)) (w : World) :
  calls_of (UseFocus.run isMac hasPointerEvents t ((opts, d) :: ds)) w
  = calls_of (UseFocus.deliver isMac hasPointerEvents opts t d) w
    ++ calls_of (UseFocus.run isMac hasPointerEvents t ds)
         (world_after (UseFocus.deliver isMac hasPointerEvents opts t d) w).
Proof. cbn [UseFocus.run]. apply calls_of_bind. Qed.

Lemma last_cons_any_default (x : bool) (l : list bool) (p q : bool) :
  List.last (x :: l) p = List.last (x :: l) q.
Proof.
  revert x. induction l as [| y l IH]; intros x; [reflexivity |].
  change (List.last (y :: l) p = List.last (y :: l) q). apply IH.
Qed.

Lemma last_app_default (l1 l2 : list bool) (p : bool) :
  List.last (l1 ++ l2) p = List.last l2 (List.last l1 p).
Proof.
  revert p. induction l1 as [| x l1 IH]; intros p; [reflexivity |].
  destruct l1 as [| y l1].
  - destruct l2 as [| z l2]; [reflexivity |].
    apply (last_cons_any_default z l2 p x).
  - change (List.last ((y :: l1) ++ l2) p
            = List.last l2 (List.last (y :: l1) p)).
    apply IH.
Qed.

Lemma last_cons_default (x : bool) (l : list bool) (p : bool) :
  List.last (x :: l) p = List.last l x.
Proof. apply (last_app_default [x] l p). Qed.

Lemma alternating_app (l1 l2 : list bool) (p : bool) :
  alternating p l1 -> alternating (List.last l1 p) l2 ->
  alternating p (l1 ++ l2).
Proof.
  revert p. induction l1 as [| x l1 IH]; intros p H1 H2; [exact H2 |].
  destruct H1 as [Hx H1]. split; [exact Hx |].
  apply IH; [exact H1 |]. rewrite last_cons_default in H2. exact H2.
Qed.

Lemma alternating_edge (a b : bool) : alternating a (edge a b).
Proof. destruct a, b; cbn; auto. Qed.

Lemma last_edge (a b : bool) : List.last (edge a b) a = b.
Proof. destruct a, b; reflexivity. Qed.

Lemma reports_app (proj : Call -> option bool) (l1 l2 : list Call) :
  reports proj (l1 ++ l2) = reports proj l1 ++ reports proj l2.
Proof. apply omap_app. Qed.

(** What one delivery reports of [isFocused] to [onFocusChange]. *)
Lemma useFocus_deliver_reports (isMac hasPointerEvents : bool)
  (opts : UseFocus.Options) (t : Node) (d : UseFocus.Dispatch) (w : World) :
  UseFocus.onFocusChange opts = true ->
  reports focusChange
    (calls_of (UseFocus.deliver isMac hasPointerEvents opts t d) w)
  = edge (isFocused (state w))
      (isFocused
         (state (world_after
                   (UseFocus.deliver isMac hasPointerEvents opts t d) w))).
Proof.
  intros H. destruct w as [g [f v] h]. destruct f, v, g;
  destruct d as [e | e | e | ne]; cbn [UseFocus.deliver];
    unfold UseFocus.focusListener, UseFocus.blurListener,
      UseFocus.focusVisibleListener, handleFocusVisibleTargetEvents,
      UseFocus.focusVisibleCallback, handleGlobalFocusVisibleEvent;
    rewrite ?H; exec; branch; reflexivity.
Qed.

(** What one delivery reports of [isFocused] to [onFocusWithinChange]. *)
Lemma useFocusWithin_deliver_reports (isMac hasPointerEvents : bool)
  (opts : UseFocusWithin.Options) (t : FocusWithinTarget)
  (d : UseFocusWithin.Dispatch) (w : World) :
  UseFocusWithin.onFocusWithinChange opts = true ->
  reports focusWithinChange
    (calls_of (UseFocusWithin.deliver isMac hasPointerEvents opts t d) w)
  = edge (isFocused (state w))
      (isFocused
         (state (world_after
                   (UseFocusWithin.deliver isMac hasPointerEvents opts t d) w))).
Proof.
  intros H. destruct w as [g [f v] h]. destruct f, v, g;
  destruct d as [e | e | e | e | e | ne]; cbn [UseFocusWithin.deliver];
    unfold UseFocusWithin.focusListener, UseFocusWithin.blurListener,
      UseFocusWithin.beforeBlurListener, UseFocusWithin.afterBlurListener,
      UseFocusWithin.focusVisibleListener, handleFocusVisibleTargetEvents,
      UseFocusWithin.focusVisibleCallback, handleGlobalFocusVisibleEvent;
    rewrite ?H; exec; branch; reflexivity.
Qed.

(** What one delivery reports of the visibility to
    [onFocusWithinVisibleChange]. *)
Lemma useFocusWithin_deliver_reports_visible (isMac hasPointerEvents : bool)
  (opts : UseFocusWithin.Options) (t : FocusWithinTarget)
  (d : UseFocusWithin.Dispatch) (w : World) :
  UseFocusWithin.onFocusWithinVisibleChange opts = true ->
  reports focusWithinVisibleChange
    (calls_of (UseFocusWithin.deliver isMac hasPointerEvents opts t d) w)
  = edge (visibleWithin w)
      (visibleWithin
         (world_after
            (UseFocusWithin.deliver isMac hasPointerEvents opts t d) w)).
Proof.
  intros H. destruct w as [g [f v] h]. destruct f, v, g;
  destruct d as [e | e | e | e | e | ne]; cbn [UseFocusWithin.deliver];
    unfold UseFocusWithin.focusListener, UseFocusWithin.blurListener,
      UseFocusWithin.beforeBlurListener, UseFocusWithin.afterBlurListener,
      UseFocusWithin.focusVisibleListener, handleFocusVisibleTargetEvents,
      UseFocusWithin.focusVisibleCallback, handleGlobalFocusVisibleEvent;
    rewrite ?H; exec; branch; reflexivity.
Qed.

(** X6: in every run of a [useFocus] tracker whose renders all supply
    [onFocusChange], from any state, the values passed to [onFocusChange]
    alternate, beginning with the negation of [isFocused] at the start, and
    the last value passed is [isFocused] at the end: the callback is called
    once per edge and a subscriber that stores what it is told always holds
    the tracker's [isFocused]. *)
Theorem useFocus_focusChange_alternates (isMac hasPointerEvents : bool)
  (focusTarget : Node) (ds : list (UseFocus.Options * UseFocus.Dispatch)) :
  Forall (fun od => UseFocus.onFocusChange (fst od) = true) ds ->
  forall w : World,
    alternating (isFocused (state w))
      (reports focusChange
         (calls_of (UseFocus.run isMac hasPointerEvents focusTarget ds) w))
    /\ List.last
         (reports focusChange
            (calls_of (UseFocus.run isMac hasPointerEvents focusTarget ds) w))
         (isFocused (state w))
       = isFocused
           (state (world_after
                     (UseFocus.run isMac hasPointerEvents focusTarget ds) w)).
Proof.
  induction 1 as [| [opts d] ds Hd _ IH]; intros w.
  - split; [exact I | reflexivity].
  - rewrite calls_of_focus_run_cons, world_after_focus_run_cons, reports_app.
    rewrite (useFocus_deliver_reports _ _ _ _ _ _ Hd).
    destruct (IH (world_after
                    (UseFocus.deliver isMac hasPointerEvents opts focusTarget d)
                    w)) as [Halt Hlast].
    split.
    + apply alternating_app; [apply alternating_edge |].
      rewrite last_edge. exact Halt.
    + rewrite last_app_default, last_edge. exact Hlast.
Qed.

Lemma useFocus_focusChange_alternates_witness :
  reports focusChange
    (calls_of
       (UseFocus.run false true buttonElement
          [(focusOptions None, UseFocus.FocusIn (plainEvent "focusin" buttonElement));
           (focusOptions None, UseFocus.FocusIn (plainEvent "focusin" buttonElement));
           (focusOptions None, UseFocus.FocusOut (blurTo None))])
       initialWorld)
  = [true; false]
  /\ alternating false [true; false].
Proof.
  split; [reflexivity |].
  apply (useFocus_focusChange_alternates false true buttonElement
           [(focusOptions None, UseFocus.FocusIn (plainEvent "focusin" buttonElement));
            (focusOptions None, UseFocus.FocusIn (plainEvent "focusin" buttonElement));
            (focusOptions None, UseFocus.FocusOut (blurTo None))]
           ltac:(repeat constructor) initialWorld).
Defined.

(** X7: the same for [useFocusWithin] and [onFocusWithinChange]. *)
Theorem useFocusWithin_focusWithinChange_alternates
  (isMac hasPointerEvents : bool) (focusWithinTarget : FocusWithinTarget)
  (ds : list (UseFocusWithin.Options * UseFocusWithin.Dispatch)) :
  Forall (fun od => UseFocusWithin.onFocusWithinChange (fst od) = true) ds ->
  forall w : World,
    alternating (isFocused (state w))
      (reports focusWithinChange
         (calls_of
            (UseFocusWithin.run isMac hasPointerEvents focusWithinTarget ds) w))
    /\ List.last
         (reports focusWithinChange
            (calls_of
               (UseFocusWithin.run isMac hasPointerEvents focusWithinTarget ds)
               w))
         (isFocused (state w))
       = isFocused
           (state (world_after
                     (UseFocusWithin.run isMac hasPointerEvents
                        focusWithinTarget ds) w)).
Proof.
  induction 1 as [| [opts d] ds Hd _ IH]; intros w.
  - split; [exact I | reflexivity].
  - rewrite calls_of_run_cons, world_after_run_cons, reports_app.
    rewrite (useFocusWithin_deliver_reports _ _ _ _ _ _ Hd).
    destruct (IH (world_after
                    (UseFocusWithin.deliver isMac hasPointerEvents opts
                       focusWithinTarget d) w)) as [Halt Hlast].
    split.
    + apply alternating_app; [apply alternating_edge |].
      rewrite last_edge. exact Halt.
    + rewrite last_app_default, last_edge. exact Hlast.
Qed.

Lemma useFocusWithin_focusWithinChange_alternates_witness :
  alternating false
    (reports focusWithinChange
       (calls_of
          (UseFocusWithin.run false true subtree
             [(withinOptions None true true,
               UseFocusWithin.FocusIn (plainEvent "focusin" buttonElement));
              (withinOptions None true true,
               UseFocusWithin.FocusOut (blurTo (Some outsideElement)))])
          initialWorld)).
Proof.
  apply (useFocusWithin_focusWithinChange_alternates false true subtree
           [(withinOptions None true true,
             UseFocusWithin.FocusIn (plainEvent "focusin" buttonElement));
            (withinOptions None true true,
             UseFocusWithin.FocusOut (blurTo (Some outsideElement)))]
           ltac:(repeat constructor) initialWorld).
Defined.

(** X8: in every run of a [useFocusWithin] tracker whose renders all supply
    [onFocusWithinVisibleChange], from any state, the values passed to
    [onFocusWithinVisibleChange] alternate, and the last value passed is
    [isFocused && isFocusVisible] at the end: what the subscriber has been
    told is always whether focus is inside and visible.  This holds whether
    or not the renders are disabled. *)
Theorem useFocusWithin_visibleChange_alternates
  (isMac hasPointerEvents : bool) (focusWithinTarget : FocusWithinTarget)
  (ds : list (UseFocusWithin.Options * UseFocusWithin.Dispatch)) :
  Forall (fun od => UseFocusWithin.onFocusWithinVisibleChange (fst od) = true)
    ds ->
  forall w : World,
    alternating (visibleWithin w)
      (reports focusWithinVisibleChange
         (calls_of
            (UseFocusWithin.run isMac hasPointerEvents focusWithinTarget ds) w))
    /\ List.last
         (reports focusWithinVisibleChange
            (calls_of
               (UseFocusWithin.run isMac hasPointerEvents focusWithinTarget ds)
               w))
         (visibleWithin w)
       = visibleWithin
           (world_after
              (UseFocusWithin.run isMac hasPointerEvents focusWithinTarget ds)
              w).
Proof.
  induction 1 as [| [opts d] ds Hd _ IH]; intros w.
  - split; [exact I | reflexivity].
  - rewrite calls_of_run_cons, world_after_run_cons, reports_app.
    rewrite (useFocusWithin_deliver_reports_visible _ _ _ _ _ _ Hd).
    destruct (IH (world_after
                    (UseFocusWithin.deliver isMac hasPointerEvents opts
                       focusWithinTarget d) w)) as [Halt Hlast].
    split.
    + apply alternating_app; [apply alternating_edge |].
      rewrite last_edge. exact Halt.
    + rewrite last_app_default, last_edge. exact Hlast.
Qed.

Lemma useFocusWithin_visibleChange_alternates_witness :
  alternating false
    (reports focusWithinVisibleChange
       (calls_of
          (UseFocusWithin.run false true subtree
             [(withinOptions None true true,
               UseFocusWithin.FocusIn (plainEvent "focusin" buttonElement));
              (withinOptions (Some true) true true,
               UseFocusWithin.TargetInput (plainEvent "mousedown" buttonElement));
              (withinOptions None true true,
               UseFocusWithin.FocusOut (blurTo (Some outsideElement)))])
          initialWorld)).
Proof.
  apply (useFocusWithin_visibleChange_alternates false true subtree
           [(withinOptions None true true,
             UseFocusWithin.FocusIn (plainEvent "focusin" buttonElement));
            (withinOptions (Some true) true true,
             UseFocusWithin.TargetInput (plainEvent "mousedown" buttonElement));
            (withinOptions None true true,
             UseFocusWithin.FocusOut (blurTo (Some outsideElement)))]
           ltac:(repeat constructor) initialWorld).
Defined.

(** ** The trackers only read the global guess *)

(** X9: the listeners of the trackers never assign the global guess: in
    every run of either tracker that contains no window-level input event,
    [isGlobalFocusVisible] at the end is what it was at the start. *)
Theorem trackers_do_not_write_global_guess (isMac hasPointerEvents : bool)
  (w : World) :
  (forall (focusTarget : Node)
     (ds : list (UseFocus.Options * UseFocus.Dispatch)),
      Forall (fun od => is_WindowInput_focus (snd od) = false) ds ->
      isGlobalFocusVisible
        (world_after (UseFocus.run isMac hasPointerEvents focusTarget ds) w)
      = isGlobalFocusVisible w)
  /\ (forall (focusWithinTarget : FocusWithinTarget)
        (ds : list (UseFocusWithin.Options * UseFocusWithin.Dispatch)),
         Forall (fun od => is_WindowInput_within (snd od) = false) ds ->
         isGlobalFocusVisible
           (world_after
              (UseFocusWithin.run isMac hasPointerEvents focusWithinTarget ds)
              w)
         = isGlobalFocusVisible w).
Proof.
  split; intros t ds Hds; revert w.
  - induction Hds as [| [opts d] ds Hd _ IH]; intros w; [reflexivity |].
    rewrite world_after_focus_run_cons, IH. clear IH.
    destruct w as [g [f v] h].
    destruct d as [e | e | e | ne]; [| | | discriminate Hd];
      cbn [UseFocus.deliver];
      unfold UseFocus.focusListener, UseFocus.blurListener,
        UseFocus.focusVisibleListener, handleFocusVisibleTargetEvents,
        UseFocus.focusVisibleCallback;
      exec; branch; reflexivity.
  - induction Hds as [| [opts d] ds Hd _ IH]; intros w; [reflexivity |].
    rewrite world_after_run_cons, IH. clear IH.
    destruct w as [g [f v] h].
    destruct d as [e | e | e | e | e | ne]; [| | | | | discriminate Hd];
      cbn [UseFocusWithin.deliver];
      unfold UseFocusWithin.focusListener, UseFocusWithin.blurListener,
        UseFocusWithin.beforeBlurListener, UseFocusWithin.afterBlurListener,
        UseFocusWithin.focusVisibleListener, handleFocusVisibleTargetEvents,
        UseFocusWithin.focusVisibleCallback;
      exec; branch; reflexivity.
Qed.

Lemma trackers_do_not_write_global_guess_witness :
  isGlobalFocusVisible
    (world_after
       (UseFocus.run false true buttonElement
          [(focusOptions None, UseFocus.FocusIn (plainEvent "focusin" buttonElement));
           (focusOptions None,
            UseFocus.TargetInput (plainEvent "mousedown" buttonElement));
           (focusOptions None, UseFocus.FocusOut (blurTo None))])
       initialWorld)
  = true.
Proof.
  apply (proj1 (trackers_do_not_write_global_guess false true initialWorld)
           buttonElement).
  repeat constructor.
Defined.

(** ** Trackers that never act *)

Lemma useFocusWithin_disabled_step (isMac hasPointerEvents : bool)
  (opts : UseFocusWithin.Options) (t : FocusWithinTarget)
  (d : UseFocusWithin.Dispatch) (w : World) :
  UseFocusWithin.disabled opts = Some true ->
  isFocused (state w) = false ->
  afterBlurHandle w !! nodeId document = None ->
  calls_of (UseFocusWithin.deliver isMac hasPointerEvents opts t d) w = []
  /\ state (world_after (UseFocusWithin.deliver isMac hasPointerEvents opts t d)
              w)
     = state w
  /\ afterBlurHandle
       (world_after (UseFocusWithin.deliver isMac hasPointerEvents opts t d) w)
     = afterBlurHandle w.
Proof.
  intros Hd Hf Hw.
  destruct d as [e | e | e | e | e | ne].
  - cbn [UseFocusWithin.deliver]. unfold UseFocusWithin.focusListener.
    rewrite Hd. repeat split.
  - cbn [UseFocusWithin.deliver]. unfold UseFocusWithin.blurListener.
    rewrite Hd. repeat split.
  - cbn [UseFocusWithin.deliver]. unfold UseFocusWithin.beforeBlurListener.
    rewrite Hd. repeat split.
  - unfold calls_of, world_after. rewrite (afterBlur_unarmed _ _ _ _ _ _ Hw).
    repeat split.
  - clear Hw. destruct w as [g [f v] h]. cbn in Hf. subst f.
    cbn [UseFocusWithin.deliver].
    unfold UseFocusWithin.focusVisibleListener, handleFocusVisibleTargetEvents,
      UseFocusWithin.focusVisibleCallback.
    exec. branch; repeat split.
  - clear Hw. destruct w as [g [f v] h].
    cbn [UseFocusWithin.deliver]. unfold handleGlobalFocusVisibleEvent.
    exec. branch; repeat split.
Qed.

Lemma useFocus_disabled_step (isMac hasPointerEvents : bool)
  (opts : UseFocus.Options) (t : Node) (d : UseFocus.Dispatch) (w : World) :
  UseFocus.disabled opts = Some true ->
  isFocused (state w) = false ->
  calls_of (UseFocus.deliver isMac hasPointerEvents opts t d) w = []
  /\ state (world_after (UseFocus.deliver isMac hasPointerEvents opts t d) w)
     = state w.
Proof.
  intros Hd Hf. destruct w as [g [f v] h]. cbn in Hf. subst f.
  destruct d as [e | e | e | ne]; cbn [UseFocus.deliver];
    unfold UseFocus.focusListener, UseFocus.blurListener,
      UseFocus.focusVisibleListener, handleFocusVisibleTargetEvents,
      UseFocus.focusVisibleCallback, handleGlobalFocusVisibleEvent;
    rewrite ?Hd; exec; branch; repeat split.
Qed.

(** X10: a tracker that is blurred and disabled in every render of a run
    calls nothing during the run and keeps its state, whatever events are
    delivered (for [useFocusWithin], with no after-blur listener registered
    at the start). *)
Theorem disabled_from_blurred_is_silent (isMac hasPointerEvents : bool) :
  (forall (focusTarget : Node)
     (ds : list (UseFocus.Options * UseFocus.Dispatch)),
      Forall (fun od => UseFocus.disabled (fst od) = Some true) ds ->
      forall w : World,
        isFocused (state w) = false ->
        calls_of (UseFocus.run isMac hasPointerEvents focusTarget ds) w = []
        /\ state (world_after
                    (UseFocus.run isMac hasPointerEvents focusTarget ds) w)
           = state w)
  /\ (forall (focusWithinTarget : FocusWithinTarget)
        (ds : list (UseFocusWithin.Options * UseFocusWithin.Dispatch)),
         Forall (fun od => UseFocusWithin.disabled (fst od) = Some true) ds ->
         forall w : World,
           isFocused (state w) = false ->
           afterBlurHandle w !! nodeId document = None ->
           calls_of
             (UseFocusWithin.run isMac hasPointerEvents focusWithinTarget ds) w
           = []
           /\ state (world_after
                       (UseFocusWithin.run isMac hasPointerEvents
                          focusWithinTarget ds) w)
              = state w).
Proof.
  split; intros t ds Hds.
  - induction Hds as [| [opts d] ds Hd _ IH]; intros w Hf;
      [split; reflexivity |].
    rewrite calls_of_focus_run_cons, world_after_focus_run_cons.
    destruct (useFocus_disabled_step isMac hasPointerEvents opts t d w Hd Hf)
      as [Hc Hs].
    rewrite Hc.
    destruct (IH (world_after
                    (UseFocus.deliver isMac hasPointerEvents opts t d) w))
      as [Hc' Hs']; [rewrite Hs; exact Hf |].
    rewrite Hc', Hs', Hs. split; reflexivity.
  - induction Hds as [| [opts d] ds Hd _ IH]; intros w Hf Hw;
      [split; reflexivity |].
    rewrite calls_of_run_cons, world_after_run_cons.
    destruct (useFocusWithin_disabled_step isMac hasPointerEvents opts t d w
                Hd Hf Hw) as (Hc & Hs & Hh).
    rewrite Hc.
    destruct (IH (world_after
                    (UseFocusWithin.deliver isMac hasPointerEvents opts t d) w))
      as [Hc' Hs']; [rewrite Hs; exact Hf | rewrite Hh; exact Hw |].
    rewrite Hc', Hs', Hs. split; reflexivity.
Qed.

Lemma disabled_from_blurred_is_silent_witness :
  calls_of
    (UseFocusWithin.run false true subtree
       [(withinOptions (Some true) true true,
         UseFocusWithin.FocusIn (plainEvent "focusin" buttonElement));
        (withinOptions (Some true) true true,
         UseFocusWithin.BeforeBlur (plainEvent "beforeblur" buttonElement));
        (withinOptions (Some true) true true,
         UseFocusWithin.AfterBlur (plainEvent "afterblur" buttonElement));
        (withinOptions (Some true) true true,
         UseFocusWithin.TargetInput (plainEvent "mousedown" buttonElement))])
    initialWorld
  = [].
Proof.
  apply (proj2 (disabled_from_blurred_is_silent false true) subtree).
  - repeat constructor.
  - reflexivity.
  - reflexivity.
Defined.

Lemma useFocus_non_element_step (isMac hasPointerEvents : bool)
  (opts : UseFocus.Options) (t : Node) (d : UseFocus.Dispatch) (w : World) :
  nodeType t <> 1 ->
  calls_of (UseFocus.deliver isMac hasPointerEvents opts t d) w = []
  /\ state (world_after (UseFocus.deliver isMac hasPointerEvents opts t d) w)
     = state w.
Proof.
  intros Hn. apply Nat.eqb_neq in Hn. destruct w as [g [f v] h].
  destruct d as [e | e | e | ne]; cbn [UseFocus.deliver];
    rewrite ?Hn; cbn [andb]; [split; reflexivity .. |].
  unfold handleGlobalFocusVisibleEvent. exec. branch; split; reflexivity.
Qed.

(** X11: [useFocus] sets its listeners only on an element
    ([focusTarget.nodeType === 1]): with any other target, a document or a
    text node for example, no run calls anything or changes the state. *)
Theorem useFocus_non_element_is_silent (isMac hasPointerEvents : bool)
  (focusTarget : Node) (ds : list (UseFocus.Options * UseFocus.Dispatch)) :
  nodeType focusTarget <> 1 ->
  forall w : World,
    calls_of (UseFocus.run isMac hasPointerEvents focusTarget ds) w = []
    /\ state (world_after
                (UseFocus.run isMac hasPointerEvents focusTarget ds) w)
       = state w.
Proof.
  intros Hn. induction ds as [| [opts d] ds IH]; intros w;
    [split; reflexivity |].
  rewrite calls_of_focus_run_cons, world_after_focus_run_cons.
  destruct (useFocus_non_element_step isMac hasPointerEvents opts focusTarget
              d w Hn) as [Hc Hs].
  destruct (IH (world_after
                  (UseFocus.deliver isMac hasPointerEvents opts focusTarget d)
                  w)) as [Hc' Hs'].
  rewrite Hc, Hc', Hs', Hs. split; reflexivity.
Qed.

Lemma useFocus_non_element_is_silent_witness :
  calls_of
    (UseFocus.run false true document
       [(focusOptions None, UseFocus.FocusIn (plainEvent "focusin" document));
        (focusOptions None, UseFocus.FocusOut (blurTo None))])
    initialWorld
  = [].
Proof.
  apply (useFocus_non_element_is_silent false true document).
  discriminate.
Defined.

(** ** The blur pair along a run *)

Lemma count_app (p : Call -> bool) (l1 l2 : list Call) :
  count p (l1 ++ l2) = count p l1 + count p l2.
Proof. unfold count. rewrite List.filter_app, List.length_app. reflexivity. Qed.

Lemma armed_lookup_None (w : World) :
  afterBlurHandle w !! nodeId document = None -> armed w = 0.
Proof. unfold armed. intros ->. reflexivity. Qed.

Lemma armed_lookup_Some (w : World) (l : AfterBlurListener) :
  afterBlurHandle w !! nodeId document = Some l -> armed w = 1.
Proof. unfold armed. intros ->. reflexivity. Qed.

(** One delivery: an [onAfterBlurWithin] call uses up a registration, and a
    registration is made only along with an [onBeforeBlurWithin] call. *)
Lemma blur_pair_step (isMac hasPointerEvents : bool)
  (opts : UseFocusWithin.Options) (t : FocusWithinTarget)
  (d : UseFocusWithin.Dispatch) (w : World) :
  count is_onAfterBlurWithin
    (calls_of (UseFocusWithin.deliver isMac hasPointerEvents opts t d) w)
  + armed (world_after (UseFocusWithin.deliver isMac hasPointerEvents opts t d)
             w)
  <= count is_onBeforeBlurWithin
       (calls_of (UseFocusWithin.deliver isMac hasPointerEvents opts t d) w)
     + armed w.
Proof.
  destruct d as [e | e | e | e | e | ne].
  - destruct w as [g [f v] h]. cbn [UseFocusWithin.deliver].
    unfold UseFocusWithin.focusListener, armed.
    exec. branch; cbn; lia.
  - destruct w as [g [f v] h]. cbn [UseFocusWithin.deliver].
    unfold UseFocusWithin.blurListener, armed.
    exec. branch; cbn; lia.
  - cbn [UseFocusWithin.deliver].
    destruct (UseFocusWithin.onBeforeBlurWithin opts) eqn:Hb.
    + destruct (is_disabled (UseFocusWithin.disabled opts)) eqn:Hd.
      * unfold UseFocusWithin.beforeBlurListener. rewrite Hd.
        cbn. lia.
      * apply is_disabled_false in Hd.
        unfold calls_of, world_after.
        rewrite (beforeBlurListener_arms opts e w Hd Hb). cbn [fst snd].
        rewrite (armed_lookup_Some _
                   {| captured_onAfterBlurWithin :=
                        UseFocusWithin.onAfterBlurWithin opts |})
          by apply lookup_insert_eq.
        cbn. lia.
    + unfold calls_of, world_after.
      rewrite (beforeBlurListener_absent opts e w Hb). cbn. lia.
  - destruct (afterBlurHandle w !! nodeId document) as [l |] eqn:Hw.
    + unfold calls_of, world_after.
      rewrite (afterBlur_armed _ _ _ _ _ _ _ Hw). cbn [fst snd].
      rewrite (armed_lookup_Some _ _ Hw).
      rewrite armed_lookup_None by apply lookup_delete_eq.
      destruct (captured_onAfterBlurWithin l); cbn; lia.
    + unfold calls_of, world_after.
      rewrite (afterBlur_unarmed _ _ _ _ _ _ Hw). cbn. lia.
  - destruct w as [g [f v] h]. cbn [UseFocusWithin.deliver].
    unfold UseFocusWithin.focusVisibleListener, handleFocusVisibleTargetEvents,
      UseFocusWithin.focusVisibleCallback, armed.
    exec. branch; cbn; lia.
  - destruct w as [g [f v] h]. cbn [UseFocusWithin.deliver].
    unfold handleGlobalFocusVisibleEvent, armed.
    exec. branch; cbn; lia.
Qed.

Lemma blur_pair_run (isMac hasPointerEvents : bool) (t : FocusWithinTarget)
  (ds : list (UseFocusWithin.Options * UseFocusWithin.Dispatch)) :
  forall w : World,
    count is_onAfterBlurWithin
      (calls_of (UseFocusWithin.run isMac hasPointerEvents t ds) w)
    + armed (world_after (UseFocusWithin.run isMac hasPointerEvents t ds) w)
    <= count is_onBeforeBlurWithin
         (calls_of (UseFocusWithin.run isMac hasPointerEvents t ds) w)
       + armed w.
Proof.
  induction ds as [| [opts d] ds IH]; intros w; [cbn; lia |].
  rewrite calls_of_run_cons, world_after_run_cons, !count_app.
  pose proof (blur_pair_step isMac hasPointerEvents opts t d w) as Hstep.
  pose proof (IH (world_after
                    (UseFocusWithin.deliver isMac hasPointerEvents opts t d) w))
    as Hrest.
  lia.
Qed.

(** X12: in every run of a [useFocusWithin] tracker that starts with no
    listener registered on [document], whatever the renders supply and
    whatever events are delivered, [onAfterBlurWithin] is called at most as
    often as [onBeforeBlurWithin]. *)
Theorem onAfterBlurWithin_at_most_onBeforeBlurWithin
  (isMac hasPointerEvents : bool) (focusWithinTarget : FocusWithinTarget)
  (ds : list (UseFocusWithin.Options * UseFocusWithin.Dispatch)) (w : World) :
  afterBlurHandle w !! nodeId document = None ->
  count is_onAfterBlurWithin
    (calls_of (UseFocusWithin.run isMac hasPointerEvents focusWithinTarget ds)
       w)
  <= count is_onBeforeBlurWithin
       (calls_of
          (UseFocusWithin.run isMac hasPointerEvents focusWithinTarget ds) w).
Proof.
  intros Hw.
  pose proof (blur_pair_run isMac hasPointerEvents focusWithinTarget ds w)
    as Hrun.
  rewrite (armed_lookup_None w Hw) in Hrun. lia.
Qed.

Lemma onAfterBlurWithin_at_most_onBeforeBlurWithin_witness :
  count is_onAfterBlurWithin
    (calls_of
       (UseFocusWithin.run false true subtree
          [(withinOptions None true true,
            UseFocusWithin.BeforeBlur (plainEvent "beforeblur" buttonElement));
           (withinOptions None true true,
            UseFocusWithin.AfterBlur (plainEvent "afterblur" buttonElement));
           (withinOptions None true true,
            UseFocusWithin.AfterBlur (plainEvent "afterblur" buttonElement))])
       initialWorld)
  <= count is_onBeforeBlurWithin
       (calls_of
          (UseFocusWithin.run false true subtree
             [(withinOptions None true true,
               UseFocusWithin.BeforeBlur (plainEvent "beforeblur" buttonElement));
              (withinOptions None true true,
               UseFocusWithin.AfterBlur (plainEvent "afterblur" buttonElement));
              (withinOptions None true true,
               UseFocusWithin.AfterBlur (plainEvent "afterblur" buttonElement))])
          initialWorld).
Proof.
  apply onAfterBlurWithin_at_most_onBeforeBlurWithin.
  reflexivity.
Defined.

Lemma one_listener_step (isMac hasPointerEvents : bool)
  (opts : UseFocusWithin.Options) (t : FocusWithinTarget)
  (d : UseFocusWithin.Dispatch) (w : World) :
  afterBlurHandle w = ∅
  \/ (exists l, afterBlurHandle w = {[nodeId document := l]}) ->
  afterBlurHandle
    (world_after (UseFocusWithin.deliver isMac hasPointerEvents opts t d) w)
  = ∅
  \/ (exists l,
         afterBlurHandle
           (world_after (UseFocusWithin.deliver isMac hasPointerEvents opts t d)
              w)
         = {[nodeId document := l]}).
Proof.
  intros Hw. destruct d as [e | e | e | e | e | ne].
  - revert Hw. destruct w as [g [f v] h]. intros Hw.
    cbn [UseFocusWithin.deliver]. unfold UseFocusWithin.focusListener.
    exec. branch; exact Hw.
  - revert Hw. destruct w as [g [f v] h]. intros Hw.
    cbn [UseFocusWithin.deliver]. unfold UseFocusWithin.blurListener.
    exec. branch; exact Hw.
  - cbn [UseFocusWithin.deliver].
    destruct (UseFocusWithin.onBeforeBlurWithin opts) eqn:Hb.
    + destruct (is_disabled (UseFocusWithin.disabled opts)) eqn:Hd.
      * unfold UseFocusWithin.beforeBlurListener. rewrite Hd. exact Hw.
      * apply is_disabled_false in Hd. unfold world_after.
        rewrite (beforeBlurListener_arms opts e w Hd Hb).
        cbn [fst snd with_afterBlurHandle afterBlurHandle].
        right. eexists.
        destruct Hw as [-> | [l ->]];
          [apply insert_empty | apply insert_singleton_eq].
    + unfold world_after. rewrite (beforeBlurListener_absent opts e w Hb).
      exact Hw.
  - destruct (afterBlurHandle w !! nodeId document) as [l |] eqn:Hl.
    + unfold world_after. rewrite (afterBlur_armed _ _ _ _ _ _ _ Hl).
      cbn [fst snd with_afterBlurHandle afterBlurHandle].
      left. destruct Hw as [-> | [l' ->]];
        [apply delete_empty | apply delete_singleton_eq].
    + unfold world_after. rewrite (afterBlur_unarmed _ _ _ _ _ _ Hl).
      exact Hw.
  - revert Hw. destruct w as [g [f v] h]. intros Hw.
    cbn [UseFocusWithin.deliver].
    unfold UseFocusWithin.focusVisibleListener, handleFocusVisibleTargetEvents,
      UseFocusWithin.focusVisibleCallback.
    exec. branch; exact Hw.
  - revert Hw. destruct w as [g [f v] h]. intros Hw.
    cbn [UseFocusWithin.deliver]. unfold handleGlobalFocusVisibleEvent.
    exec. branch; exact Hw.
Qed.

(** X13: the after-blur handle of a [useFocusWithin] tracker never holds
    more than the one listener on [document]: in every run that starts
    with an empty handle, the handle at the end is empty or holds a single
    listener, registered on [document]. *)
Theorem afterBlurHandle_holds_one_listener (isMac hasPointerEvents : bool)
  (focusWithinTarget : FocusWithinTarget)
  (ds : list (UseFocusWithin.Options * UseFocusWithin.Dispatch)) (w : World) :
  afterBlurHandle w = ∅ ->
  afterBlurHandle
    (world_after
       (UseFocusWithin.run isMac hasPointerEvents focusWithinTarget ds) w)
  = ∅
  \/ (exists l,
         afterBlurHandle
           (world_after
              (UseFocusWithin.run isMac hasPointerEvents focusWithinTarget ds)
              w)
         = {[nodeId document := l]}).
Proof.
  intros Hw.
  assert (Hinv : afterBlurHandle w = ∅
                 \/ (exists l, afterBlurHandle w = {[nodeId document := l]}))
    by (left; exact Hw).
  clear Hw. revert w Hinv.
  induction ds as [| [opts d] ds IH]; intros w Hinv; [exact Hinv |].
  rewrite world_after_run_cons. apply IH.
  apply one_listener_step, Hinv.
Qed.

Lemma afterBlurHandle_holds_one_listener_witness :
  afterBlurHandle
    (world_after
       (UseFocusWithin.run false true subtree
          [(withinOptions None true true,
            UseFocusWithin.BeforeBlur (plainEvent "beforeblur" buttonElement));
           (withinOptions None true false,
            UseFocusWithin.BeforeBlur (plainEvent "beforeblur" inputElement))])
       initialWorld)
  = ∅
  \/ (exists l,
         afterBlurHandle
           (world_after
              (UseFocusWithin.run false true subtree
                 [(withinOptions None true true,
                   UseFocusWithin.BeforeBlur
                     (plainEvent "beforeblur" buttonElement));
                  (withinOptions None true false,
                   UseFocusWithin.BeforeBlur
                     (plainEvent "beforeblur" inputElement))])
              initialWorld)
         = {[nodeId document := l]}).
Proof.
  apply afterBlurHandle_holds_one_listener.
  reflexivity.
Defined.

(** ** Mounting *)

Lemma trackGlobalFocusVisible_appends (hasPointerEvents passiveSupported : bool)
  (ls : list WindowListener) :
  trackGlobalFocusVisible hasPointerEvents passiveSupported ls
  = ls ++ map (fun ty => {| listenerType := ty; capture := true;
                            passive := passiveSupported |})
            (globalFocusVisibleEvents hasPointerEvents).
Proof.
  unfold trackGlobalFocusVisible.
  generalize (globalFocusVisibleEvents hasPointerEvents) as tys.
  intros tys. revert ls.
  induction tys as [| ty tys IH]; intros ls; cbn [fold_left map].
  - rewrite app_nil_r. reflexivity.
  - rewrite IH, <- app_assoc. reflexivity.
Qed.

Lemma mounts_tracked (hasPointerEvents passiveSupported : bool) (n : nat)
  (m : ModuleGlobals) :
  hasTrackedGlobalFocusVisible m = true ->
  mounts hasPointerEvents passiveSupported n m = m.
Proof.
  intros Hm. induction n as [| n IH]; [reflexivity |].
  cbn [mounts]. unfold useFocusLifecycles. rewrite Hm. exact IH.
Qed.

(** X14: the global listeners are registered once, by the first hook
    instance that mounts.  After any positive number of mounts from the
    module's initial state, [window.addEventListener] has been called
    exactly once for each type of [globalFocusVisibleEvents], in that order,
    always capturing and passive exactly when passive listeners are
    supported; and once the flag is set a mount registers nothing. *)
Theorem global_listeners_registered_once
  (hasPointerEvents passiveSupported : bool) (n : nat) :
  mounts hasPointerEvents passiveSupported (S n) initialGlobals
  = {| hasTrackedGlobalFocusVisible := true;
       windowListeners :=
         map (fun ty => {| listenerType := ty; capture := true;
                           passive := passiveSupported |})
           (globalFocusVisibleEvents hasPointerEvents) |}
  /\ map listenerType
       (windowListeners
          (mounts hasPointerEvents passiveSupported (S n) initialGlobals))
     = globalFocusVisibleEvents hasPointerEvents
  /\ (forall m : ModuleGlobals,
         hasTrackedGlobalFocusVisible m = true ->
         useFocusLifecycles hasPointerEvents passiveSupported m = m).
Proof.
  assert (Hfirst :
            mounts hasPointerEvents passiveSupported (S n) initialGlobals
            = {| hasTrackedGlobalFocusVisible := true;
                 windowListeners :=
                   map (fun ty => {| listenerType := ty; capture := true;
                                     passive := passiveSupported |})
                     (globalFocusVisibleEvents hasPointerEvents) |}).
  { cbn [mounts]. rewrite mounts_tracked by reflexivity.
    unfold useFocusLifecycles, initialGlobals.
    cbn [hasTrackedGlobalFocusVisible negb windowListeners].
    rewrite trackGlobalFocusVisible_appends. reflexivity. }
  split; [exact Hfirst |]. split.
  - rewrite Hfirst. cbn [windowListeners].
    rewrite List.map_map. cbn [listenerType]. apply List.map_id.
  - intros m Hm. unfold useFocusLifecycles. rewrite Hm. reflexivity.
Qed.

Lemma global_listeners_registered_once_witness :
  map listenerType (windowListeners (mounts true false 3 initialGlobals))
  = ["keydown"; "pointermove"; "pointerdown"; "pointerup"]
  /\ useFocusLifecycles true false (mounts true false 1 initialGlobals)
     = mounts true false 1 initialGlobals.
Proof.
  destruct (global_listeners_registered_once true false 2)
    as (_ & Htypes & Hagain).
  split.
  - exact Htypes.
  - apply Hagain. reflexivity.
Defined.

(** ** Successive window events *)

(** X15: the global guess is set by the last window event that decides it.
    Handling two events in a row leaves the world that the second alone
    would leave when the second is decisive (a keydown with a valid key, or
    another event whose target is not the HTML node), and the world that
    the first leaves otherwise; the guess after a decisive event says
    whether it was a keydown. *)
Theorem last_decisive_event_wins (isMac : bool) (e1 e2 : NativeEvent)
  (w : World) :
  (decisive isMac e2 = true ->
   world_after
     (handleGlobalFocusVisibleEvent isMac e1;;
      handleGlobalFocusVisibleEvent isMac e2) w
   = world_after (handleGlobalFocusVisibleEvent isMac e2) w
   /\ isGlobalFocusVisible
        (world_after (handleGlobalFocusVisibleEvent isMac e2) w)
      = String.eqb (type e2) "keydown")
  /\ (decisive isMac e2 = false ->
      world_after
        (handleGlobalFocusVisibleEvent isMac e1;;
         handleGlobalFocusVisibleEvent isMac e2) w
      = world_after (handleGlobalFocusVisibleEvent isMac e1) w).
Proof.
  rewrite world_after_bind.
  unfold decisive, handleGlobalFocusVisibleEvent.
  destruct w as [g s h].
  split; intros Hd;
    destruct (String.eqb (type e2) "keydown");
    destruct (String.eqb (type e1) "keydown");
    destruct (isValidKey isMac e1);
    destruct (String.eqb (nodeName (target e1)) "HTML");
    try rewrite Hd;
    try (apply negb_true_iff in Hd; rewrite Hd);
    try (apply negb_false_iff in Hd; rewrite Hd);
    repeat split.
Qed.

Lemma last_decisive_event_wins_witness :
  isGlobalFocusVisible
    (world_after
       (handleGlobalFocusVisibleEvent false (plainNative "keydown" buttonElement);;
        handleGlobalFocusVisibleEvent false
          (plainNative "pointerdown" buttonElement)) initialWorld)
  = false.
Proof.
  destruct (last_decisive_event_wins false (plainNative "keydown" buttonElement)
              (plainNative "pointerdown" buttonElement) initialWorld)
    as [Hdecisive _].
  destruct (Hdecisive eq_refl) as [Hworld Hguess].
  rewrite Hworld. exact Hguess.
Defined.

(** ** From focus to blur *)

(** X16: a focus-in on the tracked element followed by a focus-out,
    delivered to a [useFocus] tracker that is not disabled and starts
    blurred, with no window event in between.  The tracker ends blurred;
    [onFocus], [onFocusChange(true)], [onBlur] and [onFocusChange(false)]
    are each called once, in this order, and [onFocusVisibleChange] is
    called with true after the first two and with false at the end, both or
    neither according to the global guess. *)
Theorem useFocus_focus_then_blur (isMac hasPointerEvents : bool)
  (opts : UseFocus.Options) (focusTarget : Node)
  (focusEvent blurEvent : SyntheticEvent) (w : World) :
  UseFocus.disabled opts <> Some true ->
  nodeType focusTarget = 1 ->
  nodeId focusTarget = nodeId (eventTarget focusEvent) ->
  isFocused (state w) = false ->
  world_after
    (UseFocus.run isMac hasPointerEvents focusTarget
       [(opts, UseFocus.FocusIn focusEvent); (opts, UseFocus.FocusOut blurEvent)])
    w
  = {| isGlobalFocusVisible := isGlobalFocusVisible w;
       state := {| isFocused := false;
                   isFocusVisible := isGlobalFocusVisible w |};
       afterBlurHandle := afterBlurHandle w |}
  /\ calls_of
       (UseFocus.run isMac hasPointerEvents focusTarget
          [(opts, UseFocus.FocusIn focusEvent);
           (opts, UseFocus.FocusOut blurEvent)]) w
     = supplied (UseFocus.onFocus opts) (Call_onFocus focusEvent)
       ++ supplied (UseFocus.onFocusChange opts) (Call_onFocusChange true)
       ++ supplied (isGlobalFocusVisible w && UseFocus.onFocusVisibleChange opts)
            (Call_onFocusVisibleChange true)
       ++ supplied (UseFocus.onBlur opts) (Call_onBlur blurEvent)
       ++ supplied (UseFocus.onFocusChange opts) (Call_onFocusChange false)
       ++ supplied (isGlobalFocusVisible w && UseFocus.onFocusVisibleChange opts)
            (Call_onFocusVisibleChange false).
Proof.
  intros Hd Hn Ht Hf.
  apply is_disabled_false in Hd. apply same_node_true in Ht.
  apply Nat.eqb_eq in Hn.
  destruct w as [g [f v] h]. cbn in Hf. subst f.
  cbn [UseFocus.run UseFocus.deliver]. rewrite Hn.
  unfold UseFocus.focusListener, UseFocus.blurListener. rewrite Hd.
  exec. rewrite Ht.
  destruct g, (UseFocus.onFocus opts), (UseFocus.onFocusChange opts),
    (UseFocus.onFocusVisibleChange opts), (UseFocus.onBlur opts);
    split; reflexivity.
Qed.

Lemma useFocus_focus_then_blur_witness :
  calls_of
    (UseFocus.run false true buttonElement
       [(focusOptions None, UseFocus.FocusIn (plainEvent "focusin" buttonElement));
        (focusOptions None, UseFocus.FocusOut (blurTo None))]) pointerWorld
  = [Call_onFocus (plainEvent "focusin" buttonElement); Call_onFocusChange true;
     Call_onBlur (blurTo None); Call_onFocusChange false].
Proof.
  apply (useFocus_focus_then_blur false true (focusOptions None) buttonElement
           (plainEvent "focusin" buttonElement) (blurTo None) pointerWorld).
  - discriminate.
  - reflexivity.
  - reflexivity.
  - reflexivity.
Defined.

(** X17: focus entering and leaving a subtree tracked by a [useFocusWithin]
    tracker that is not disabled and starts blurred, with no other event in
    between.  When the focus-out leads outside of the subtree the tracker
    ends blurred, having called [onFocusWithinChange(true)],
    [onFocusWithin], [onFocusWithinChange(false)] and [onBlurWithin] once
    each, in this order, and [onFocusWithinVisibleChange] with true and
    then with false, both or neither.  When the focus-out leads to a node
    inside the subtree and a focus-in follows, the tracker stays focused
    and, after the first focus-in, only [onFocusWithin] is called. *)
Theorem useFocusWithin_enter_and_leave (isMac hasPointerEvents : bool)
  (opts : UseFocusWithin.Options) (focusWithinTarget : FocusWithinTarget)
  (e1 e2 e3 : SyntheticEvent) (w : World) :
  UseFocusWithin.disabled opts <> Some true ->
  isFocused (state w) = false ->
  (isRelatedTargetWithin focusWithinTarget (relatedTarget (nativeEvent e2))
   = false ->
   world_after
     (UseFocusWithin.run isMac hasPointerEvents focusWithinTarget
        [(opts, UseFocusWithin.FocusIn e1); (opts, UseFocusWithin.FocusOut e2)])
     w
   = {| isGlobalFocusVisible := isGlobalFocusVisible w;
        state := {| isFocused := false;
                    isFocusVisible := isGlobalFocusVisible w |};
        afterBlurHandle := afterBlurHandle w |}
   /\ calls_of
        (UseFocusWithin.run isMac hasPointerEvents focusWithinTarget
           [(opts, UseFocusWithin.FocusIn e1);
            (opts, UseFocusWithin.FocusOut e2)]) w
      = supplied (UseFocusWithin.onFocusWithinChange opts)
          (Call_onFocusWithinChange true)
        ++ supplied (isGlobalFocusVisible w
                     && UseFocusWithin.onFocusWithinVisibleChange opts)
             (Call_onFocusWithinVisibleChange true)
        ++ supplied (UseFocusWithin.onFocusWithin opts) (Call_onFocusWithin e1)
        ++ supplied (UseFocusWithin.onFocusWithinChange opts)
             (Call_onFocusWithinChange false)
        ++ supplied (isGlobalFocusVisible w
                     && UseFocusWithin.onFocusWithinVisibleChange opts)
             (Call_onFocusWithinVisibleChange false)
        ++ supplied (UseFocusWithin.onBlurWithin opts) (Call_onBlurWithin e2))
  /\ (isRelatedTargetWithin focusWithinTarget (relatedTarget (nativeEvent e2))
      = true ->
      world_after
        (UseFocusWithin.run isMac hasPointerEvents focusWithinTarget
           [(opts, UseFocusWithin.FocusIn e1);
            (opts, UseFocusWithin.FocusOut e2);
            (opts, UseFocusWithin.FocusIn e3)]) w
      = {| isGlobalFocusVisible := isGlobalFocusVisible w;
           state := {| isFocused := true;
                       isFocusVisible := isGlobalFocusVisible w |};
           afterBlurHandle := afterBlurHandle w |}
      /\ calls_of
           (UseFocusWithin.run isMac hasPointerEvents focusWithinTarget
              [(opts, UseFocusWithin.FocusIn e1);
               (opts, UseFocusWithin.FocusOut e2);
               (opts, UseFocusWithin.FocusIn e3)]) w
         = supplied (UseFocusWithin.onFocusWithinChange opts)
             (Call_onFocusWithinChange true)
           ++ supplied (isGlobalFocusVisible w
                        && UseFocusWithin.onFocusWithinVisibleChange opts)
                (Call_onFocusWithinVisibleChange true)
           ++ supplied (UseFocusWithin.onFocusWithin opts)
                (Call_onFocusWithin e1)
           ++ supplied (UseFocusWithin.onFocusWithin opts)
                (Call_onFocusWithin e3)).
Proof.
  intros Hd Hf. apply is_disabled_false in Hd.
  destruct w as [g [f v] h]. cbn in Hf. subst f.
  split; intros Hr;
    cbn [UseFocusWithin.run UseFocusWithin.deliver];
    unfold UseFocusWithin.focusListener, UseFocusWithin.blurListener;
    rewrite Hd, Hr; exec;
    destruct g, (UseFocusWithin.onFocusWithinChange opts),
      (UseFocusWithin.onFocusWithinVisibleChange opts),
      (UseFocusWithin.onFocusWithin opts), (UseFocusWithin.onBlurWithin opts);
    split; reflexivity.
Qed.

Lemma useFocusWithin_enter_and_leave_witness :
  calls_of
    (UseFocusWithin.run false true subtree
       [(withinOptions None true true,
         UseFocusWithin.FocusIn (plainEvent "focusin" buttonElement));
        (withinOptions None true true,
         UseFocusWithin.FocusOut (blurTo (Some outsideElement)))]) initialWorld
  = [Call_onFocusWithinChange true; Call_onFocusWithinVisibleChange true;
     Call_onFocusWithin (plainEvent "focusin" buttonElement);
     Call_onFocusWithinChange false; Call_onFocusWithinVisibleChange false;
     Call_onBlurWithin (blurTo (Some outsideElement))].
Proof.
  destruct (useFocusWithin_enter_and_leave false true
              (withinOptions None true true) subtree
              (plainEvent "focusin" buttonElement)
              (blurTo (Some outsideElement))
              (plainEvent "focusin" buttonElement) initialWorld)
    as [Hleave _].
  - discriminate.
  - reflexivity.
  - apply Hleave. reflexivity.
Defined.
